(** * folder-to-single-file: the three [combine_files.py] variants

    A shallow embedding of the repository's three variants of the
    directory combiner,

    - [src/combine_files.py]      (module [Root]),
    - [src/src/combine_files.py]  (module [Src]),
    - [src/lib/combine_files.py]  (module [Lib]),

    over an explicit model of what the code observes of the file system:
    directory listings, file sizes, file bytes, and the failures of
    [os.scandir], [os.path.getsize] and [open].  *)

From Stdlib Require Import List String Ascii ZArith Bool Lia.
From Stdlib Require Import Sorting.Sorted Sorting.Permutation.
From Stdlib Require Strings.Byte.
Import ListNotations.

Set Warnings "-register-all".
Local Open Scope string_scope.
Local Open Scope Z_scope.

(** * Python strings *)

(** File names, paths and exclusion patterns are [string]s: Python [str]s
    whose code points are all below 256.  (A name that [os.walk] could not
    decode, which Python keeps with lone surrogates and cannot write to the
    output stream, is no such string.)  Decoded file content and
    everything written to the output stream is a [text]: the list of the
    code points of a Python [str]. *)
Definition text := list Z.

Definition str (s : string) : text :=
  map (fun a => Z.of_N (N_of_ascii a)) (list_ascii_of_string s).

Module Py.

(** [s.startswith(p)] *)
Definition startswith (s p : string) : bool := String.prefix p s.

(** [p in s] on strings: [p] is a prefix of some suffix of [s]. *)
Fixpoint contains (p s : string) : bool :=
  String.prefix p s ||
  match s with
  | EmptyString => false
  | String _ s' => contains p s'
  end.

(** [s.endswith(x)]: [x] is one of the suffixes of [s]. *)
Fixpoint endswith (s x : string) : bool :=
  String.eqb x s ||
  match s with
  | EmptyString => false
  | String _ s' => endswith s' x
  end.

Definition lower_ascii (a : ascii) : ascii :=
  let n := nat_of_ascii a in
  if (65 <=? n)%nat && (n <=? 90)%nat then ascii_of_nat (n + 32) else a.

(** [s.lower()], on the ASCII letters. *)
Fixpoint lower (s : string) : string :=
  match s with
  | EmptyString => EmptyString
  | String a s' => String (lower_ascii a) (lower s')
  end.

(** [s.rfind(c)], [None] for -1. *)
Fixpoint rfind (c : ascii) (s : string) : option nat :=
  match s with
  | EmptyString => None
  | String a s' =>
      match rfind c s' with
      | Some i => Some (S i)
      | None => if Ascii.eqb a c then Some O else None
      end
  end.

(** [any(p in name for p in patterns)] *)
Definition any_in (patterns : list string) (name : string) : bool :=
  existsb (fun p => contains p name) patterns.

(** [x in xs] for a set or list of strings *)
Definition mem (x : string) (xs : list string) : bool :=
  existsb (String.eqb x) xs.

End Py.

(** ** [os.path] and [pathlib] *)

Module Path.

(** [os.path.join(a, b)] (POSIX) *)
Definition join (a b : string) : string :=
  if Py.startswith b "/" then b
  else if String.eqb a "" || Py.endswith a "/" then a ++ b
  else a ++ "/" ++ b.

(** The final component of a path: what follows its last ["/"]. *)
Definition name (p : string) : string :=
  match Py.rfind "/"%char p with
  | Some i => substring (S i) (String.length p - S i) p
  | None => p
  end.

(** [Path(p).suffix]: with [i = name.rfind('.')], the slice [name[i:]]
    when [0 < i < len(name) - 1], the empty string otherwise. *)
Definition suffix (p : string) : string :=
  let n := name p in
  match Py.rfind "."%char n with
  | Some i =>
      if (0 <? i)%nat && (i <? String.length n - 1)%nat
      then substring i (String.length n - i) n
      else ""
  | None => ""
  end.

(** [os.path.relpath(p, start)] for a path [p] below [start]: [p] without
    the leading [start] and separator. *)
Definition relpath (p start : string) : string :=
  if Py.startswith p start then
    let r := substring (String.length start)
                       (String.length p - String.length start) p in
    if Py.startswith r "/" then substring 1 (String.length r - 1) r else r
  else p.

End Path.

(** * The file system as the program observes it *)

(** What the file system answers for a name that a directory lists as a
    file.

    - [Readable]: [open(path, 'rb')] followed by [read] gives the bytes.
    - [Unreadable]: the file is there, but [open] raises an [IOError]
      with this message.
    - [Gone]: the path cannot be resolved (the directory lists the name
      but cannot be searched, or the file has gone since it was listed):
      [os.path.getsize] raises an [OSError] with this message, and so
      does [open]. *)
Inductive read_result :=
| Readable (content : list Byte.byte)
| Unreadable (reason : string)
| Gone (reason : string).

Record file := File {
  fname : string;
  fsize : Z;              (* what os.path.getsize returns, when it returns *)
  fdata : read_result
}.

(** [os.path.getsize(path)]: the size, or the message of the [OSError]. *)
Definition getsize (f : file) : Z + string :=
  match fdata f with
  | Gone reason => inr reason
  | _ => inl (fsize f)
  end.

(** A directory entry: a regular file, or a directory with the entries
    [os.scandir] yields for it, in the order it yields them.  A directory
    that is not [listable] makes [os.scandir] raise.  Symbolic links are
    not modelled. *)
Inductive node :=
| F (f : file)
| D (dname : string) (listable : bool) (entries : list node).

Definition node_name (n : node) : string :=
  match n with
  | F f => fname f
  | D d _ _ => d
  end.

(** [entry.is_file()] and [entry.is_dir()] *)
Definition is_file (n : node) : bool :=
  match n with F _ => true | D _ _ _ => false end.

Definition is_dir (n : node) : bool := negb (is_file n).

(** [os.scandir(path)]: the entries, or [None] when the call raises
    (nothing there, not a directory, no permission). *)
Definition scandir (at_path : option node) : option (list node) :=
  match at_path with
  | Some (D _ true es) => Some es
  | _ => None
  end.

(** * [sorted] *)

Section Sorted.
Context {A : Type} (le : A -> A -> bool).

Fixpoint insert (x : A) (l : list A) : list A :=
  match l with
  | [] => [x]
  | y :: l' => if le x y then x :: y :: l' else y :: insert x l'
  end.

(** [sorted(l)], with [le] the order of the elements' keys.  Built from
    the right, every element is put in front of the first element that
    is not smaller, so elements with equal keys keep their order: the
    sort is stable, like Python's. *)
Fixpoint sorted (l : list A) : list A :=
  match l with
  | [] => []
  | x :: l' => insert x (sorted l')
  end.
End Sorted.

(** * [os.walk] *)

Definition subdirs (es : list node) : list string :=
  map node_name (filter is_dir es).

Fixpoint files_of (es : list node) : list file :=
  match es with
  | [] => []
  | F f :: es' => f :: files_of es'
  | D _ _ _ :: es' => files_of es'
  end.

(** One step of the walk: [(root, dirs, files)]. *)
Definition triple : Type := string * list string * list file.

(** [os.walk(top)], top-down, with the default [onerror=None]: a directory
    that cannot be listed yields nothing.  The caller may prune [dirs] in
    place before the generator goes on; all the callers here either leave
    it alone or assign [dirs[:] = [d for d in dirs if keep d]], so the walk
    takes [keep] and yields the pruned [dirs]. *)
Fixpoint walk_node (keep : string -> bool) (top : string) (n : node)
  : list triple :=
  match n with
  | F _ => []
  | D _ false _ => []
  | D _ true es =>
      (top, filter keep (subdirs es), files_of es)
      :: flat_map (fun c =>
           match c with
           | F _ => []
           | D d _ _ =>
               if keep d then walk_node keep (Path.join top d) c else []
           end) es
  end.

Definition os_walk (keep : string -> bool) (top : string)
  (at_top : option node) : list triple :=
  match at_top with
  | Some n => walk_node keep top n
  | None => []
  end.

(** * The tree lister: [get_file_tree]

    The function is the same, character for character, in
    [src/src/combine_files.py] and [src/lib/combine_files.py];
    [src/combine_files.py] calls it without defining it. *)

Module Tree.

(** The order of the keys [(not e.is_file(), e.name)]: tuples compare
    lexicographically and [False < True]. *)
Definition key_le (a b : node) : bool :=
  match negb (is_file a), negb (is_file b) with
  | false, true => true
  | true, false => false
  | _, _ => String.leb (node_name a) (node_name b)
  end.

Definition visible (e : node) : bool :=
  negb (Py.startswith (node_name e) ".").

(** The two statements at the head of [add_to_tree]. *)
Definition listing (es : list node) : list node :=
  filter visible (sorted key_le es).

Definition branch_last : text := [9492; 9472; 9472; 32].   (* "└── " *)
Definition branch_mid  : text := [9500; 9472; 9472; 32].   (* "├── " *)
Definition pad_last    : text := [32; 32; 32; 32].         (* "    " *)
Definition pad_mid     : text := [9474; 32; 32; 32].       (* "│   " *)

Definition is_nil {A} (l : list A) : bool :=
  match l with [] => true | _ => false end.

(** The [for] loop of [add_to_tree].  Every entry comes with [sub], the
    recursive call on it, which is run when the entry is a directory;
    [None] stands for the [OSError] of a failing [os.scandir]. *)
Fixpoint render (prefix : text)
  (entries : list (node * (text -> option (list text))))
  : option (list text) :=
  match entries with
  | [] => Some []
  | (e, sub) :: rest =>
      let is_last := is_nil rest in
      let line :=
        (prefix ++ (if is_last then branch_last else branch_mid)
                ++ str (node_name e))%list in
      let below :=
        if is_dir e
        then sub (prefix ++ (if is_last then pad_last else pad_mid))%list
        else Some [] in
      match below, render prefix rest with
      | Some b, Some r => Some (line :: b ++ r)%list
      | _, _ => None
      end
  end.

(** [add_to_tree(path, prefix)], the lines it appends.  The recursive
    call is attached to each entry before the sort, which keeps the
    recursion structural; it runs only for the directories that are
    listed. *)
Fixpoint add_to_tree (n : node) (prefix : text) : option (list text) :=
  match n with
  | D _ true es =>
      let attached := map (fun e => (e, add_to_tree e)) es in
      render prefix
        (filter (fun p => visible (fst p))
           (sorted (fun p q => key_le (fst p) (fst q)) attached))
  | _ => None
  end.

(** ["\n".join(lines)] *)
Fixpoint join_lines (lines : list text) : text :=
  match lines with
  | [] => []
  | [l] => l
  | l :: ls => (l ++ 10 :: join_lines ls)%list
  end.

Definition header (now : text) : text :=
  (str "# File Tree - Generated on " ++ now ++ [10])%list.

(** [get_file_tree(directory)]; [now] is the rendering of
    [datetime.now()].  [None]: an [OSError] escapes. *)
Definition get_file_tree (now : text) (at_top : option node)
  : option text :=
  match at_top with
  | Some n =>
      match add_to_tree n [] with
      | Some lines => Some (join_lines (header now :: lines))
      | None => None
      end
  | None => None
  end.

End Tree.

(** * Codecs: [bytes.decode] *)

Module Codec.

Definition val (b : Byte.byte) : Z := Z.of_N (Byte.to_N b).

Inductive encoding := UTF8 | UTF8_SIG | ASCII | LATIN1.

(** A continuation byte, [10xxxxxx]. *)
Definition cont (b : Z) : bool := (128 <=? b) && (b <=? 191).

(** The second byte of a three-byte sequence: no overlong form after
    [E0], no surrogate after [ED]. *)
Definition second3 (b0 b1 : Z) : bool :=
  cont b1 && negb ((b0 =? 224) && (b1 <? 160))
          && negb ((b0 =? 237) && (160 <=? b1)).

(** The second byte of a four-byte sequence: no overlong form after
    [F0], nothing beyond U+10FFFF after [F4]. *)
Definition second4 (b0 b1 : Z) : bool :=
  cont b1 && negb ((b0 =? 240) && (b1 <? 144))
          && negb ((b0 =? 244) && (144 <=? b1)).

Definition low6 (b : Z) : Z := Z.land b 63.

Definition cp2 (b0 b1 : Z) : Z :=
  Z.lor (Z.shiftl (Z.land b0 31) 6) (low6 b1).
Definition cp3 (b0 b1 b2 : Z) : Z :=
  Z.lor (Z.shiftl (Z.land b0 15) 12)
        (Z.lor (Z.shiftl (low6 b1) 6) (low6 b2)).
Definition cp4 (b0 b1 b2 b3 : Z) : Z :=
  Z.lor (Z.shiftl (Z.land b0 7) 18)
        (Z.lor (Z.shiftl (low6 b1) 12)
               (Z.lor (Z.shiftl (low6 b2) 6) (low6 b3))).

Definition emit (c : Z) (rest : option text) : option text :=
  option_map (cons c) rest.

(** The UTF-8 decoder.  With [replace = false] it is
    [decode('utf-8')]: [None] is the [UnicodeDecodeError].  With
    [replace = true] it is [decode('utf-8', errors='replace')]: every
    maximal ill-formed run gives one U+FFFD and decoding resumes behind
    it. *)
Fixpoint utf8 (replace : bool) (bs : list Byte.byte) : option text :=
  let bad (resume : option text) :=
    if replace then emit 65533 resume else None in
  match bs with
  | [] => Some []
  | x0 :: r0 =>
      let b0 := val x0 in
      if b0 <? 128 then emit b0 (utf8 replace r0)
      else if (194 <=? b0) && (b0 <=? 223) then
        match r0 with
        | x1 :: r1 =>
            if cont (val x1)
            then emit (cp2 b0 (val x1)) (utf8 replace r1)
            else bad (utf8 replace r0)
        | [] => bad (utf8 replace r0)
        end
      else if (224 <=? b0) && (b0 <=? 239) then
        match r0 with
        | x1 :: r1 =>
            if second3 b0 (val x1) then
              match r1 with
              | x2 :: r2 =>
                  if cont (val x2)
                  then emit (cp3 b0 (val x1) (val x2)) (utf8 replace r2)
                  else bad (utf8 replace r1)
              | [] => bad (utf8 replace r1)
              end
            else bad (utf8 replace r0)
        | [] => bad (utf8 replace r0)
        end
      else if (240 <=? b0) && (b0 <=? 244) then
        match r0 with
        | x1 :: r1 =>
            if second4 b0 (val x1) then
              match r1 with
              | x2 :: r2 =>
                  if cont (val x2) then
                    match r2 with
                    | x3 :: r3 =>
                        if cont (val x3)
                        then emit (cp4 b0 (val x1) (val x2) (val x3))
                                  (utf8 replace r3)
                        else bad (utf8 replace r2)
                    | [] => bad (utf8 replace r2)
                    end
                  else bad (utf8 replace r1)
              | [] => bad (utf8 replace r1)
              end
            else bad (utf8 replace r0)
        | [] => bad (utf8 replace r0)
        end
      else bad (utf8 replace r0)
  end.

(** [utf-8-sig]: a leading byte-order mark [EF BB BF] is dropped. *)
Definition strip_bom (bs : list Byte.byte) : list Byte.byte :=
  match bs with
  | x0 :: x1 :: x2 :: r =>
      if (val x0 =? 239) && (val x1 =? 187) && (val x2 =? 191)
      then r else bs
  | _ => bs
  end.

(** [content.decode(encoding)]; [None] is the [UnicodeDecodeError]. *)
Definition decode (e : encoding) (bs : list Byte.byte) : option text :=
  match e with
  | UTF8 => utf8 false bs
  | UTF8_SIG => utf8 false (strip_bom bs)
  | ASCII =>
      if forallb (fun x => val x <? 128) bs then Some (map val bs)
      else None
  | LATIN1 => Some (map val bs)
  end.

(** Input that ends while it may still become a byte-order mark: the
    empty input, [EF], and [EF BB]. *)
Definition bom_started (bs : list Byte.byte) : bool :=
  match bs with
  | [] => true
  | [x0] => val x0 =? 239
  | [x0; x1] => (val x0 =? 239) && (val x1 =? 187)
  | _ => false
  end.

(** [f.read()] on a file opened in text mode with [encoding = e], before
    the line ends are translated.  The stream feeds an incremental
    decoder.  The one of [utf-8-sig] waits for three bytes before it
    decides whether the input starts with a byte-order mark; input that
    ends while it is still waiting is dropped, and the read gives the
    empty text without an error.  On all other input, and for the other
    three encodings, the read gives what [bytes.decode] gives. *)
Definition read_text (e : encoding) (bs : list Byte.byte) : option text :=
  match e with
  | UTF8_SIG => if bom_started bs then Some [] else decode e bs
  | _ => decode e bs
  end.

(** [content.decode('utf-8', errors='replace')] *)
Definition decode_replace (bs : list Byte.byte) : text :=
  match utf8 true bs with
  | Some t => t
  | None => []
  end.

(** [text.encode('latin1')], [None] when a code point does not fit. *)
Fixpoint encode_latin1 (t : text) : option (list Byte.byte) :=
  match t with
  | [] => Some []
  | c :: t' =>
      match Byte.of_N (Z.to_N c), encode_latin1 t' with
      | Some b, Some bs => if 0 <=? c then Some (b :: bs) else None
      | _, _ => None
      end
  end.

(** Reading in text mode with the default [newline=None]: the decoded
    text with ["\r\n"] and ["\r"] turned into ["\n"]. *)
Fixpoint universal_newlines (t : text) : text :=
  match t with
  | [] => []
  | 13 :: t' =>
      10 :: match t' with
            | 10 :: t'' => universal_newlines t''
            | _ => universal_newlines t'
            end
  | c :: t' => c :: universal_newlines t'
  end.

End Codec.

(** * A run: the output stream, the terminal, the progress counter *)

(** What the program prints or logs.  The constructors carry the data the
    message is formatted from. *)
Inductive notice :=
| Progress (processed total : nat)
    (* "\rProcessing files... {processed}/{total} ({percent:.1f}%)" *)
| SkipTooLarge (file_path : string)
    (* "\nSkipping {file_path}: File too large ..." *)
| SkipBinary (file_path : string)
    (* "\nSkipping {file_path}: Binary file" *)
| ErrorProcessing (file_path : string) (reason : string)
    (* "\nError processing {file_path}: {reason}" *)
| LogError (message : string)
    (* logging.error(message) *)
| Info (message : string)
    (* the banner lines of main *)
| EndLine.
    (* print() *)

Inductive exn :=
| OSError (message : string)
| ZeroDivisionError.

Record run := Run {
  written : list text;       (* the outfile.write calls, in order *)
  printed : list notice;     (* what went to the terminal, in order *)
  processed_files : nat
}.

Definition start : run := Run [] [] 0.

Inductive outcome (A : Type) :=
| Ok (a : A)
| Raise (e : exn).
Arguments Ok {A} a.
Arguments Raise {A} e.

(** Statements: they change the run and either go on with a value or
    raise; what was written and printed before a raise stays. *)
Definition M (A : Type) : Type := run -> outcome A * run.

Definition ret {A} (a : A) : M A := fun r => (Ok a, r).

Definition bind {A B} (m : M A) (k : A -> M B) : M B :=
  fun r =>
    match m r with
    | (Ok a, r') => k a r'
    | (Raise e, r') => (Raise e, r')
    end.

Definition raise {A} (e : exn) : M A := fun r => (Raise e, r).

Notation "m ;; k" := (bind m (fun _ => k))
  (at level 61, right associativity).

Definition write (t : text) : M unit :=
  fun r => (Ok tt, Run (written r ++ [t]) (printed r) (processed_files r)).

Definition print (n : notice) : M unit :=
  fun r => (Ok tt, Run (written r) (printed r ++ [n]) (processed_files r)).

(** [processed_files += 1] *)
Definition count_file : M unit :=
  fun r => (Ok tt, Run (written r) (printed r) (S (processed_files r))).

(** The progress line.  Python evaluates
    [(processed_files / total_files) * 100] while it formats the line, so
    a zero [total_files] raises before anything is printed. *)
Definition print_progress (total_files : nat) : M unit :=
  fun r =>
    match total_files with
    | O => (Raise ZeroDivisionError, r)
    | S _ => print (Progress (processed_files r) total_files) r
    end.

(** [if not quiet: statement] *)
Definition unless (quiet : bool) (m : M unit) : M unit :=
  if quiet then ret tt else m.

(** [for x in l: body x] *)
Fixpoint for_each {A} (body : A -> M unit) (l : list A) : M unit :=
  match l with
  | [] => ret tt
  | x :: l' => body x ;; for_each body l'
  end.

(** ** What all three variants share *)

(** [sorted(files)]: the names in the order of Python strings. *)
Definition sorted_files (files : list file) : list file :=
  sorted (fun a b => String.leb (fname a) (fname b)) files.

Definition excluded (patterns : list string) (name : string) : bool :=
  Py.any_in patterns name.

(** The pre-scan:
    [sum(1 for _, _, files in os.walk(input_dir) for f in files
         if not any(pattern in f for pattern in exclude_patterns))] *)
Definition count_total (patterns : list string) (input_dir : string)
  (at_top : option node) : nat :=
  List.length
    (filter (fun f => negb (excluded patterns (fname f)))
       (flat_map (fun t : triple => snd t)
          (os_walk (fun _ => true) input_dir at_top))).

(** [b'\0' in f.read(1024)] *)
Definition null_in_chunk (content : list Byte.byte) : bool :=
  existsb (fun x => Codec.val x =? 0) (firstn 1024 content).

Definition block_header (relative_path : string) : text :=
  str (String "010" (String "010" "### File: ") ++ relative_path
       ++ String "010" "").

Definition section_marker : text :=
  str (String "010" (String "010" "# Combined Files Content")
       ++ String "010" "").

(** What one run sees of the outside.  [before] is what lies at
    [input_dir] when the pre-scan walks it; [after] is what lies there
    once [open(output_file, 'w')] has returned, which is what the tree
    lister and the main walk see.  The two differ when that call creates
    the output file inside the directory.  [out_ok] tells whether
    [os.makedirs] and [open] succeed for the output path, [now] is the
    formatted [datetime.now()]. *)
Record world := World {
  now : text;
  out_ok : bool;
  before : option node;
  after : option node
}.

(** What is left when [combine_files] is over. *)
Record result (A : Type) := Result {
  returned : outcome A;
  output : option text;     (* the output file, [None] if never created *)
  stdout : list notice
}.
Arguments Result {A}.
Arguments returned {A}.
Arguments output {A}.
Arguments stdout {A}.

(** The common frame: create the output directory, count, open the output
    file, run [body] on the open stream, close it.  The file exists, with
    whatever was written, however [body] ends. *)
Definition with_output_file (w : world) (body : M unit) : result unit :=
  if out_ok w then
    let '(o, r) := body start in
    Result o (Some (List.concat (written r))) (printed r)
  else Result (Raise (OSError "open")) None [].

(** The part of the [with] body that writes the tree listing. *)
Definition write_tree (w : world) (no_tree : bool) : M unit :=
  if no_tree then ret tt
  else
    match Tree.get_file_tree (now w) (after w) with
    | Some t => write t ;; write section_marker
    | None => raise (OSError "scandir")
    end.

(** * [src/combine_files.py] *)

Module Root.

Definition code_extensions : list string :=
  [".swift"; ".h"; ".m"; ".c"; ".cpp"; ".hpp"; ".java"; ".kt";
   ".py"; ".sh"; ".bash"; ".js"; ".jsx"; ".ts"; ".tsx"; ".html";
   ".css"; ".scss"; ".sass"; ".md"; ".txt"; ".json"; ".xml";
   ".yaml"; ".yml"; ".properties"; ".config"; ".plist"].

(** [is_binary(file_path)]; [data] is what opening and reading the file
    gives. *)
Definition is_binary (file_path : string) (data : read_result) : bool :=
  if Py.mem (Py.lower (Path.suffix file_path)) code_extensions then false
  else
    match data with
    | Readable content => null_in_chunk content
    | Unreadable _ | Gone _ => true   (* except IOError: return True *)
    end.

Definition encodings : list Codec.encoding :=
  [Codec.UTF8; Codec.UTF8_SIG; Codec.ASCII; Codec.LATIN1].

(** The [for encoding in ...] loop with the statement behind it. *)
Fixpoint try_decode (encs : list Codec.encoding)
  (content : list Byte.byte) : text :=
  match encs with
  | [] => Codec.decode_replace content
  | e :: encs' =>
      match Codec.decode e content with
      | Some t => t
      | None => try_decode encs' content
      end
  end.

(** [read_file_content(file_path)]: the text, or the message of the
    [IOError] it raises. *)
Definition read_file_content (file_path : string) (data : read_result)
  : text + string :=
  match data with
  | Readable content => inl (try_decode encodings content)
  | Unreadable reason | Gone reason =>
      inr ("Failed to read " ++ file_path ++ ": " ++ reason)
  end.

Definition default_exclude_patterns : list string :=
  [".git"; "__pycache__"; ".pyc"; ".class"; ".o"; ".DS_Store"].

Definition force_text_extensions : list string :=
  [".swift"; ".md"; ".txt"; ".json"; ".yaml"; ".yml"].

Definition default_max_size_mb : Z := 10.

Section Walk.
Variables (input_dir : string) (max_size : Z)
          (exclude_patterns : list string) (quiet : bool)
          (total_files : nat).

(** The body of [for file in sorted(files)]. *)
Definition process (root : string) (f : file) : M unit :=
  if excluded exclude_patterns (fname f) then ret tt
  else
    let file_path := Path.join root (fname f) in
    count_file ;;
    unless quiet (print_progress total_files) ;;
    match getsize f with
    | inr reason => raise (OSError reason)      (* no handler around it *)
    | inl size =>
        if size >? max_size then
          unless quiet (print (SkipTooLarge file_path))
        else
          let file_ext := Py.lower (Path.suffix file_path) in
          if String.eqb file_ext ".swift"
             || (negb (is_binary file_path (fdata f))
                 && Py.mem file_ext force_text_extensions)
          then
            match read_file_content file_path (fdata f) with
            | inl content =>
                write (block_header (Path.relpath file_path input_dir)) ;;
                write content
            | inr message => print (ErrorProcessing file_path message)
            end
          else unless quiet (print (SkipBinary file_path))
    end.

(** The body of [for root, dirs, files in os.walk(input_dir)]. *)
Definition visit (t : triple) : M unit :=
  let '(root, _, files) := t in
  for_each (process root) (sorted_files files).

Definition keep (d : string) : bool :=
  negb (excluded exclude_patterns d).

Definition walk (at_top : option node) : M unit :=
  for_each visit (os_walk keep input_dir at_top).
End Walk.

(** [combine_files(input_dir, output_file, max_size_mb, exclude_patterns,
    no_tree, quiet)].  The output path is present through the answers of
    the world. *)
Definition combine_files (w : world) (input_dir : string)
  (max_size_mb : Z) (exclude_patterns : option (list string))
  (no_tree quiet : bool) : result unit :=
  let exclude_patterns :=
    match exclude_patterns with
    | None => default_exclude_patterns
    | Some ps => ps
    end in
  let max_size := max_size_mb * 1024 * 1024 in
  let total_files := count_total exclude_patterns input_dir (before w) in
  with_output_file w
    (write_tree w no_tree ;;
     walk input_dir max_size exclude_patterns quiet total_files (after w) ;;
     unless quiet (print EndLine)).

End Root.

(** * [src/src/combine_files.py] *)

Module Src.

Definition text_extensions : list string :=
  [".txt"; ".md"; ".swift"; ".py"; ".js"; ".json"; ".xml";
   ".yaml"; ".yml"; ".sh"; ".bash"; ".zsh"; ".html"; ".css";
   ".h"; ".m"; ".c"; ".cpp"; ".java"; ".kt"; ".rs"; ".go";
   ".rb"; ".php"; ".pl"; ".conf"; ".cfg"; ".ini"].

(** [is_binary(file_path)] *)
Definition is_binary (file_path : string) (data : read_result) : bool :=
  if existsb (Py.endswith (Py.lower file_path)) text_extensions then false
  else
    match data with
    | Readable content => null_in_chunk content
    | Unreadable _ | Gone _ => true   (* except Exception: return True *)
    end.

Definition default_exclude_patterns : list string :=
  [".git"; ".gitignore"; ".DS_Store"; "__pycache__";
   "node_modules"; "venv"; "env"; ".env"; "combined_files.txt"].

Section Walk.
Variables (input_dir : string) (max_size : Z)
          (exclude_patterns : list string) (quiet : bool)
          (total_files : nat).

(** The body of [for file in sorted(files)].  The file is opened in
    text mode as UTF-8; the header is written once it is open, before
    its content is read and decoded. *)
Definition process (root : string) (f : file) : M unit :=
  if excluded exclude_patterns (fname f) then ret tt
  else
    let file_path := Path.join root (fname f) in
    count_file ;;
    unless quiet (print_progress total_files) ;;
    match getsize f with
    | inr reason => raise (OSError reason)      (* outside the inner try *)
    | inl size =>
        if size >? max_size then
          unless quiet (print (SkipTooLarge file_path))
        else if is_binary file_path (fdata f) then
          unless quiet (print (SkipBinary file_path))
        else
          match fdata f with
          | Unreadable reason | Gone reason =>
              print (ErrorProcessing file_path reason)
          | Readable content =>
              write (block_header (Path.relpath file_path input_dir)) ;;
              match Codec.decode Codec.UTF8 content with
              | Some t => write (Codec.universal_newlines t)
              | None =>
                  print (ErrorProcessing file_path
                           "'utf-8' codec can't decode")
              end
          end
    end.

Definition visit (t : triple) : M unit :=
  let '(root, _, files) := t in
  for_each (process root) (sorted_files files).

Definition keep (d : string) : bool :=
  negb (excluded exclude_patterns d).

Definition walk (at_top : option node) : M unit :=
  for_each visit (os_walk keep input_dir at_top).
End Walk.

Definition combine_files (w : world) (input_dir : string)
  (max_size_mb : Z) (exclude_patterns : option (list string))
  (no_tree quiet : bool) : result unit :=
  let exclude_patterns :=
    match exclude_patterns with
    | None => default_exclude_patterns
    | Some ps => ps
    end in
  let max_size := max_size_mb * 1024 * 1024 in
  let total_files := count_total exclude_patterns input_dir (before w) in
  with_output_file w
    (write_tree w no_tree ;;
     walk input_dir max_size exclude_patterns quiet total_files (after w) ;;
     unless quiet (print EndLine)).

(** The command line, after [argparse]. *)
Record args := Args {
  arg_input_dir : string;      (* already absolute *)
  arg_max_size : Z;
  arg_exclude : option (list string);
  arg_no_tree : bool;
  arg_quiet : bool
}.

(** How the process ends: its exit status, what it printed, and the
    output file if there is one. *)
Record ending := Ending {
  exit_status : Z;
  terminal : list notice;
  output_file : option text
}.

(** [main()] *)
Definition main (a : args) (w : world) : ending :=
  match before w with
  | None =>                         (* not os.path.exists(input_dir) *)
      Ending 1 [Info ("Error: Input directory '" ++ arg_input_dir a
                      ++ "' does not exist")] None
  | Some (F _) =>                   (* not os.path.isdir(input_dir) *)
      Ending 1 [Info ("Error: '" ++ arg_input_dir a
                      ++ "' is not a directory")] None
  | Some (D _ false _) =>           (* not os.access(input_dir, R_OK) *)
      Ending 1 [Info ("Error: No read permission for directory '"
                      ++ arg_input_dir a ++ "'")] None
  | Some (D _ true _) =>
      let exclude_patterns :=
        (default_exclude_patterns ++
         match arg_exclude a with Some ps => ps | None => [] end)%list in
      let banner :=
        if arg_quiet a then []
        else [Info ("Processing directory: " ++ arg_input_dir a);
              Info "Output file";
              Info "Maximum file size";
              Info ("Excluded patterns: "
                    ++ String.concat ", " exclude_patterns)] in
      let r := combine_files w (arg_input_dir a) (arg_max_size a)
                 (Some exclude_patterns) (arg_no_tree a) (arg_quiet a) in
      match returned r with
      | Ok _ =>
          Ending 0
            (banner ++ stdout r ++
             (if arg_quiet a then [] else [Info "Done"]))%list
            (output r)
      | Raise _ =>                  (* the traceback; status 1 *)
          Ending 1 (banner ++ stdout r)%list (output r)
      end
  end.

End Src.

(** * [src/lib/combine_files.py] *)

Module Lib.

(** [FileProcessor]: its one field. *)
Record FileProcessor := { max_size : Z }.

(** [FileProcessor(max_size_mb)] *)
Definition new_processor (max_size_mb : Z) : FileProcessor :=
  {| max_size := max_size_mb * 1024 * 1024 |}.

Definition code_extensions : list string :=
  [".swift"; ".h"; ".m"; ".c"; ".cpp"; ".hpp"; ".java"; ".kt";
   ".py"; ".sh"; ".bash"; ".js"; ".jsx"; ".ts"; ".tsx"; ".html";
   ".css"; ".scss"; ".sass"; ".md"; ".txt"; ".json"; ".xml";
   ".yaml"; ".yml"; ".properties"; ".config"; ".plist"].

(** [FileProcessor.is_binary] *)
Definition is_binary (file_path : string) (data : read_result) : bool :=
  if Py.mem (Py.lower (Path.suffix file_path)) code_extensions then false
  else
    match data with
    | Readable content => null_in_chunk content
    | Unreadable _ | Gone _ => true   (* except IOError: return True *)
    end.

Definition encodings : list Codec.encoding :=
  [Codec.UTF8; Codec.UTF8_SIG; Codec.ASCII; Codec.LATIN1].

(** The loop over the encodings; each turn opens the file in text mode
    and reads it whole. *)
Fixpoint try_read (encs : list Codec.encoding)
  (content : list Byte.byte) : text :=
  match encs with
  | [] => Codec.universal_newlines (Codec.decode_replace content)
  | e :: encs' =>
      match Codec.read_text e content with
      | Some t => Codec.universal_newlines t
      | None => try_read encs' content
      end
  end.

(** [FileProcessor.read_file_content]: [None] after logging when the
    file cannot be opened. *)
Definition read_file_content (file_path : string) (data : read_result)
  : M (option text) :=
  match data with
  | Readable content => ret (Some (try_read encodings content))
  | Unreadable reason | Gone reason =>
      print (LogError ("Error reading " ++ file_path ++ ": " ++ reason)) ;;
      ret None
  end.

Section Walk.
Variables (processor : FileProcessor) (input_dir : string)
          (exclude_patterns : list string) (quiet : bool)
          (total_files : nat).

(** The body of [for file in sorted(files)].  The block is written
    [if content := ...], that is when the content is neither [None]
    nor empty. *)
Definition process (root : string) (f : file) : M unit :=
  if excluded exclude_patterns (fname f) then ret tt
  else
    let file_path := Path.join root (fname f) in
    count_file ;;
    unless quiet (print_progress total_files) ;;
    match getsize f with
    | inr reason => raise (OSError reason)      (* up to the outer try *)
    | inl size =>
        if size >? max_size processor then
          unless quiet (print (SkipTooLarge file_path))
        else
          let file_ext := Py.lower (Path.suffix file_path) in
          if String.eqb file_ext ".swift"
             || negb (is_binary file_path (fdata f))
          then
            bind (read_file_content file_path (fdata f)) (fun content =>
              match content with
              | Some (c :: cs) =>
                  write (block_header (Path.relpath file_path input_dir)) ;;
                  write (c :: cs)
              | _ => ret tt
              end)
          else unless quiet (print (SkipBinary file_path))
    end.

Definition visit (t : triple) : M unit :=
  let '(root, _, files) := t in
  for_each (process root) (sorted_files files).

Definition keep (d : string) : bool :=
  negb (excluded exclude_patterns d).

Definition walk (at_top : option node) : M unit :=
  for_each visit (os_walk keep input_dir at_top).
End Walk.

(** [FileCombiner.combine_files]: everything runs inside
    [try: ... except Exception], which logs and returns [False]. *)
Definition combine_files (processor : FileProcessor) (w : world)
  (input_dir : string) (exclude_patterns : option (list string))
  (no_tree quiet : bool) : result bool :=
  let exclude_patterns :=
    match exclude_patterns with
    | None => []             (* set() *)
    | Some ps => ps
    end in
  let total_files := count_total exclude_patterns input_dir (before w) in
  let r :=
    with_output_file w
      (write_tree w no_tree ;;
       walk processor input_dir exclude_patterns quiet total_files
            (after w) ;;
       unless quiet (print EndLine)) in
  match returned r with
  | Ok _ => Result (Ok true) (output r) (stdout r)
  | Raise _ =>
      Result (Ok false) (output r)
             (stdout r ++ [LogError "Error combining files"])%list
  end.

End Lib.

(** * Sanity runs *)

Definition bytes (s : string) : list Byte.byte := list_byte_of_string s.

Definition txt (name content : string) : node :=
  F (File name (Z.of_nat (String.length content)) (Readable (bytes content))).

(** A directory that stays as it is during the run, with the output file
    somewhere else. *)
Definition static (n : node) : world :=
  World (str "2024-01-01 00:00:00") true (Some n) (Some n).

Definition scenario : node :=
  D "proj" true
    [ txt "a.txt" "hello";
      F (File "b.bin" 3 (Readable [Byte.x01; Byte.x00; Byte.x02]));
      D ".git" true [ txt "config" "[core]" ] ].

(** The order the specification gives for a listing: directories before
    files, by name within each group. *)
Definition spec_before (a b : node) : Prop :=
  (is_dir a = true /\ is_file b = true) \/
  (is_file a = is_file b /\ String.leb (node_name a) (node_name b) = true).

(** The order the key [(not e.is_file(), e.name)] gives: files before the
    rest, by name within each group. *)
Definition listed_before (a b : node) : Prop :=
  (is_file a = true /\ is_dir b = true) \/
  (is_file a = is_file b /\ String.leb (node_name a) (node_name b) = true).

(** [open(name, 'w')] for a [name] directly inside the directory [n]: the
    file is created, or emptied if it is there.  (A reader sees it empty
    until the stream flushes.) *)
Definition created (name : string) (n : node) : node :=
  let fresh := F (File name 0 (Readable [])) in
  match n with
  | F _ => n
  | D d l es =>
      if existsb (fun e => String.eqb (node_name e) name) es
      then D d l (map (fun e => if String.eqb (node_name e) name
                                then fresh else e) es)
      else D d l (es ++ [fresh])
  end.

(** A run whose output file lies directly inside the input directory. *)
Definition output_inside (name : string) (n : node) : world :=
  World (str "2024-01-01 00:00:00") true (Some n) (Some (created name n)).

(** Whether the tree lister gets through: [os.scandir] succeeds on the
    top directory and on every directory it descends into. *)
Definition tree_ok (at_top : option node) : bool :=
  match at_top with
  | Some n =>
      match Tree.add_to_tree n [] with
      | Some _ => true
      | None => false
      end
  | None => false
  end.

(** [adds r ws ps k]: the run [r] after [ws] has been written, [ps]
    printed and [k] files counted. *)
Definition adds (r : run) (ws : list text) (ps : list notice) (k : nat)
  : run :=
  Run (written r ++ ws) (printed r ++ ps) (processed_files r + k).

(** ** The files of a walk, in the order the loops meet them *)

Definition walked (keep : string -> bool) (top : string)
  (at_top : option node) : list (string * file) :=
  flat_map (fun t : triple =>
              map (pair (fst (fst t))) (sorted_files (snd t)))
           (os_walk keep top at_top).

(** The files the filename filter lets through. *)
Definition live (patterns : list string) (fs : list file) : nat :=
  List.length (filter (fun f => negb (excluded patterns (fname f))) fs).

(** A progress line is sound when [1 <= processed_files <= total_files]. *)
Definition progress_ok (n : notice) : Prop :=
  match n with
  | Progress p t => (1 <= p <= t)%nat
  | _ => True
  end.

Definition no_progress (n : notice) : Prop :=
  match n with
  | Progress _ _ => False
  | _ => True
  end.

(** The directory without the entries the exclusion patterns name: the
    files whose name contains a pattern, and the directories whose name
    contains one, with all that is below them. *)
Fixpoint prune (patterns : list string) (n : node) : node :=
  match n with
  | F f => F f
  | D d l es =>
      D d l (flat_map (fun e => if excluded patterns (node_name e)
                                then [] else [prune patterns e]) es)
  end.

(** Induction on a directory tree, with the property at hand for all
    the entries of a directory. *)
Fixpoint node_forall_ind (P : node -> Prop)
  (HF : forall f, P (F f))
  (HD : forall d l es, Forall P es -> P (D d l es))
  (n : node) : P n :=
  match n with
  | F f => HF f
  | D d l es =>
      HD d l es
        ((fix all (es : list node) : Forall P es :=
            match es with
            | [] => Forall_nil P
            | e :: es' =>
                Forall_cons e (node_forall_ind P HF HD e) (all es')
            end) es)
  end.


(** * The command line of [src/lib/combine_files.py] *)

Module LibCli.

(** The white space [str.strip()] removes, among the characters below
    256: tab to carriage return, the four separators 28 to 31, the space,
    NEL and the no-break space. *)
Definition is_space (a : ascii) : bool :=
  let n := nat_of_ascii a in
  ((9 <=? n)%nat && (n <=? 13)%nat) || ((28 <=? n)%nat && (n <=? 31)%nat)
  || (n =? 32)%nat || (n =? 133)%nat || (n =? 160)%nat.

(** [s.lstrip()] *)
Fixpoint lstrip (s : string) : string :=
  match s with
  | EmptyString => EmptyString
  | String a s' => if is_space a then lstrip s' else s
  end.

(** [s.rstrip()] *)
Fixpoint rstrip (s : string) : string :=
  match s with
  | EmptyString => EmptyString
  | String a s' =>
      match rstrip s' with
      | EmptyString => if is_space a then EmptyString else String a EmptyString
      | t => String a t
      end
  end.

(** [s.strip()] *)
Definition strip (s : string) : string := rstrip (lstrip s).

(** What lies at the path given with [--config]. *)
Inductive config_file :=
| NoFile                              (* os.path.exists is False *)
| Locked (reason : string)            (* open raises *)
| Lines (lines : list string).        (* the lines, each with its newline *)

(** The generator handed to [patterns.update]:
    [line.strip() for line in f if line.strip() and not line.startswith('#')] *)
Definition config_patterns (lines : list string) : list string :=
  map strip
    (filter (fun line => negb (String.eqb (strip line) "")
                         && negb (Py.startswith line "#")) lines).

(** [FileCombiner.load_exclude_patterns(config_path)].  The set is kept as
    a list: the program only asks whether some pattern occurs in a name. *)
Definition load_exclude_patterns (config_path : option string)
  (at_path : config_file) : M (list string) :=
  match config_path with
  | None => ret []
  | Some path =>
      if String.eqb path "" then ret []          (* [if config_path and ...] *)
      else
        match at_path with
        | NoFile => ret []
        | Locked reason =>
            print (LogError ("Error loading config file: " ++ reason)) ;;
            ret []
        | Lines lines => ret (config_patterns lines)
        end
  end.

(** The command line, after [argparse]. *)
Record args := Args {
  arg_input_dir : string;      (* already absolute *)
  arg_max_size : Z;
  arg_exclude : option (list string);
  arg_config : option string;
  arg_no_tree : bool;
  arg_quiet : bool
}.

(** [main()]: the patterns are loaded first, then the input directory is
    checked, then [combine_files] decides the exit status. *)
Definition main (a : args) (at_config : config_file) (w : world)
  : Src.ending :=
  let processor := Lib.new_processor (arg_max_size a) in
  let '(loaded, r0) := load_exclude_patterns (arg_config a) at_config start in
  let exclude_patterns :=
    (match loaded with Ok ps => ps | Raise _ => [] end ++
     match arg_exclude a with Some ps => ps | None => [] end)%list in
  match before w with
  | None =>
      Src.Ending 1
        (printed r0 ++
         [LogError ("Error: Input directory '" ++ arg_input_dir a
                    ++ "' does not exist")])%list None
  | Some (F _) =>
      Src.Ending 1
        (printed r0 ++
         [LogError ("Error: '" ++ arg_input_dir a
                    ++ "' is not a directory")])%list None
  | Some (D _ false _) =>
      Src.Ending 1
        (printed r0 ++
         [LogError ("Error: No read permission for directory '"
                    ++ arg_input_dir a ++ "'")])%list None
  | Some (D _ true _) =>
      let banner :=
        if arg_quiet a then []
        else [Info ("Processing directory: " ++ arg_input_dir a);
              Info "Output file";
              Info "Maximum file size";
              Info "Excluded patterns"] in
      let r := Lib.combine_files processor w (arg_input_dir a)
                 (Some exclude_patterns) (arg_no_tree a) (arg_quiet a) in
      Src.Ending
        (match returned r with Ok true => 0 | _ => 1 end)
        (printed r0 ++ banner ++ stdout r)%list
        (output r)
  end.

End LibCli.

(** * Auxiliary notions for the properties *)

(** The tree lister gets through a directory when it can list it and gets
    through every directory among its entries whose name does not start
    with a dot. *)
Fixpoint lists_all (n : node) : bool :=
  match n with
  | F _ => false
  | D _ false _ => false
  | D _ true es =>
      forallb (fun e => negb (Tree.visible e) || is_file e || lists_all e) es
  end.

(** The entries the tree lister prints below a directory: those that do
    not start with a dot, and below the directories among them the same. *)
Fixpoint shown (n : node) : nat :=
  match n with
  | F _ => O
  | D _ _ es =>
      list_sum (map (fun e => if Tree.visible e then S (shown e) else O) es)
  end.

Definition is_error (n : notice) : Prop :=
  match n with
  | ErrorProcessing _ _ | LogError _ => True
  | _ => False
  end.

Definition is_progress (n : notice) : bool :=
  match n with
  | Progress _ _ => true
  | _ => false
  end.

(** A string that does not start with white space. *)
Definition clean_head (s : string) : Prop :=
  match s with
  | EmptyString => True
  | String a _ => LibCli.is_space a = false
  end.

(** What [src/combine_files.py] writes for one file of the walk: its
    header and its decoded content, or nothing. *)
Definition root_block (input_dir : string) (max_size : Z)
  (patterns : list string) (root : string) (f : file) : list text :=
  let file_path := Path.join root (fname f) in
  if excluded patterns (fname f) then []
  else if fsize f >? max_size then []
  else if Py.mem (Py.lower (Path.suffix file_path))
            Root.force_text_extensions
  then match fdata f with
       | Readable content =>
           [block_header (Path.relpath file_path input_dir);
            Root.try_decode Root.encodings content]
       | Unreadable _ | Gone _ => []
       end
  else [].

(** ** When [os.path.getsize] fails *)

(** How the body of the loop over the files ends for a file it counts:
    it raises where [os.path.getsize] does. *)
Definition getsize_end (f : file) : outcome unit :=
  match getsize f with
  | inl _ => Ok tt
  | inr reason => Raise (OSError reason)
  end.

Definition stat_ok (f : file) : bool :=
  match getsize f with
  | inl _ => true
  | inr _ => false
  end.

(** The files a loop gets to: the first file that passes the filename
    filter and whose size cannot be taken is the last one. *)
Fixpoint reached (patterns : list string) (l : list (string * file))
  : list (string * file) :=
  match l with
  | [] => []
  | q :: l' =>
      if excluded patterns (fname (snd q)) || stat_ok (snd q)
      then q :: reached patterns l'
      else [q]
  end.

(** How the loop ends: well, or with the [OSError] of that file. *)
Fixpoint walk_end (patterns : list string) (l : list (string * file))
  : outcome unit :=
  match l with
  | [] => Ok tt
  | q :: l' =>
      if excluded patterns (fname (snd q)) || stat_ok (snd q)
      then walk_end patterns l'
      else getsize_end (snd q)
  end.

(** The size of every file that passes the filename filter can be
    taken. *)
Definition stats_ok (patterns : list string) (l : list (string * file))
  : bool :=
  forallb (fun q => excluded patterns (fname (snd q)) || stat_ok (snd q)) l.

(** The files the walk of a variant meets: all three prune the
    directories with an excluded name. *)
Definition candidates (patterns : list string) (input_dir : string)
  (at_top : option node) : list (string * file) :=
  walked (fun d => negb (excluded patterns d)) input_dir at_top.

(** ** What a run prints and writes *)

(** What a loop prints for the files it counts, given the notices of each
    of them: the progress line (unless quiet), then the notices. *)
Fixpoint numbered (quiet : bool) (total c : nat)
  (items : list (list notice)) : list notice :=
  match items with
  | [] => []
  | notes :: rest =>
      ((if quiet then [] else [Progress (c + 1) total])
       ++ notes ++ numbered quiet total (c + 1) rest)%list
  end.

(** The [print()] behind the walk, which a raise skips. *)
Definition closing (quiet : bool) (o : outcome unit) : list notice :=
  match o with
  | Ok _ => if quiet then [] else [EndLine]
  | Raise _ => []
  end.

(** What is written ahead of the walk. *)
Definition tree_section (stamp : text) (at_top : option node)
  (no_tree : bool) : list text :=
  if no_tree then []
  else
    match Tree.get_file_tree stamp at_top with
    | Some t => [t; section_marker]
    | None => []
    end.

(** What [combine_files] leaves in [src/combine_files.py] and
    [src/src/combine_files.py] when the walk ends with [o] after writing
    [ws] and printing [ps]. *)
Definition framed (stamp : text) (ok : bool) (post : option node)
  (no_tree quiet : bool) (o : outcome unit) (ws : list text)
  (ps : list notice) : result unit :=
  if ok then
    if no_tree || tree_ok post
    then Result o
           (Some (List.concat (tree_section stamp post no_tree ++ ws)))
           (ps ++ closing quiet o)
    else Result (Raise (OSError "scandir")) (Some []) []
  else Result (Raise (OSError "open")) None [].

(** The same for [FileCombiner.combine_files], which turns every raise
    into a logged error and [False]. *)
Definition framed_lib (r : result unit) : result bool :=
  match returned r with
  | Ok _ => Result (Ok true) (output r) (stdout r)
  | Raise _ =>
      Result (Ok false) (output r)
             (stdout r ++ [LogError "Error combining files"])%list
  end.

(* ================================================================== *)
(** * Properties *)

(** ** Strings *)

Lemma ascii_compare_refl a : Ascii.compare a a = Eq.
Proof. unfold Ascii.compare. apply N.compare_refl. Qed.


Lemma string_leb_trans a b c :
  String.leb a b = true -> String.leb b c = true -> String.leb a c = true.
Proof.
  unfold String.leb. revert b c.
  induction a as [|x a IH]; intros [|y b] [|z c]; simpl; try easy.
  destruct (Ascii.compare x y) eqn:Exy; try easy;
    destruct (Ascii.compare y z) eqn:Eyz; try easy.
  - apply Ascii.compare_eq_iff in Exy, Eyz. subst.
    rewrite ascii_compare_refl. apply IH.
  - apply Ascii.compare_eq_iff in Exy. subst. now rewrite Eyz.
  - apply Ascii.compare_eq_iff in Eyz. subst. now rewrite Exy.
  - unfold Ascii.compare in *.
    rewrite N.compare_lt_iff in Exy, Eyz.
    assert (H : (N_of_ascii x < N_of_ascii z)%N) by lia.
    apply N.compare_lt_iff in H. now rewrite H.
Qed.

(** ** [sorted] *)

Section SortedFacts.
Context {A : Type} (le : A -> A -> bool).
Hypothesis le_total : forall a b, le a b = true \/ le b a = true.
Hypothesis le_trans :
  forall a b c, le a b = true -> le b c = true -> le a c = true.

Lemma insert_perm x l : Permutation (insert le x l) (x :: l).
Proof.
  induction l as [|y l IH]; simpl; [reflexivity|].
  destruct (le x y); [reflexivity|].
  rewrite IH. apply perm_swap.
Qed.

Lemma sorted_perm l : Permutation (sorted le l) l.
Proof.
  induction l as [|x l IH]; simpl; [reflexivity|].
  rewrite insert_perm. now constructor.
Qed.

Lemma insert_sorted x l :
  StronglySorted (fun a b => le a b = true) l ->
  StronglySorted (fun a b => le a b = true) (insert le x l).
Proof.
  induction 1 as [|y l Hs IH Hy]; simpl.
  - repeat constructor.
  - destruct (le x y) eqn:E.
    + constructor; [now constructor|].
      constructor; [exact E|].
      eapply Forall_impl; [|exact Hy].
      intros z Hz. now apply le_trans with y.
    + constructor; [exact IH|].
      rewrite (Forall_forall (fun b => le y b = true)).
      intros z Hz.
      apply (Permutation_in _ (insert_perm x l)) in Hz.
      destruct Hz as [<-|Hz].
      * destruct (le_total x y) as [H|H]; congruence.
      * rewrite Forall_forall in Hy. now apply Hy.
Qed.

Lemma sorted_sorted l :
  StronglySorted (fun a b => le a b = true) (sorted le l).
Proof.
  induction l; simpl; [constructor|now apply insert_sorted].
Qed.
End SortedFacts.

Lemma filter_strongly_sorted {A} (R : A -> A -> Prop) (p : A -> bool) l :
  StronglySorted R l -> StronglySorted R (filter p l).
Proof.
  induction 1 as [|x l Hs IH Hx]; simpl; [constructor|].
  destruct (p x); [|exact IH].
  constructor; [exact IH|].
  rewrite Forall_forall in *. intros y Hy.
  apply filter_In in Hy. now apply Hx.
Qed.

(** Sorting and filtering pairs on their first component is sorting and
    filtering the first components. *)
Lemma insert_attach {A B} (le : A -> A -> bool) (f : A -> B) x l :
  insert (fun p q => le (fst p) (fst q)) (x, f x) (map (fun e => (e, f e)) l)
  = map (fun e => (e, f e)) (insert le x l).
Proof.
  induction l as [|y l IH]; simpl; [reflexivity|].
  destruct (le x y); simpl; [reflexivity|]. now rewrite IH.
Qed.

Lemma sorted_attach {A B} (le : A -> A -> bool) (f : A -> B) l :
  sorted (fun p q => le (fst p) (fst q)) (map (fun e => (e, f e)) l)
  = map (fun e => (e, f e)) (sorted le l).
Proof.
  induction l as [|x l IH]; simpl; [reflexivity|].
  rewrite IH. apply insert_attach.
Qed.

Lemma filter_attach {A B} (p : A -> bool) (f : A -> B) l :
  filter (fun q => p (fst q)) (map (fun e => (e, f e)) l)
  = map (fun e => (e, f e)) (filter p l).
Proof.
  induction l as [|x l IH]; simpl; [reflexivity|].
  destruct (p x); simpl; now rewrite IH.
Qed.

(** ** The tree lister *)

Lemma key_le_total a b : Tree.key_le a b = true \/ Tree.key_le b a = true.
Proof.
  unfold Tree.key_le.
  destruct (is_file a), (is_file b); simpl; auto using String.leb_total.
Qed.

Lemma key_le_trans a b c :
  Tree.key_le a b = true -> Tree.key_le b c = true -> Tree.key_le a c = true.
Proof.
  unfold Tree.key_le.
  destruct (is_file a), (is_file b), (is_file c); simpl;
    try easy; apply string_leb_trans.
Qed.

Lemma key_le_listed_before a b :
  Tree.key_le a b = true <-> listed_before a b.
Proof.
  unfold Tree.key_le, listed_before, is_dir.
  destruct (is_file a), (is_file b); simpl; intuition congruence.
Qed.

Lemma add_to_tree_listing d es prefix :
  Tree.add_to_tree (D d true es) prefix
  = Tree.render prefix
      (map (fun e => (e, Tree.add_to_tree e)) (Tree.listing es)).
Proof.
  simpl. unfold Tree.listing.
  now rewrite (sorted_attach Tree.key_le), (filter_attach Tree.visible).
Qed.

(** C4, as the code has it: the entries of every rendered directory are
    listed with the files first and the directories after them, each group
    in the order of the names as Python strings, and without the entries
    whose name starts with a dot; nothing else is left out. *)
Theorem tree_listing_files_first :
  forall d es prefix,
    Tree.add_to_tree (D d true es) prefix
    = Tree.render prefix
        (map (fun e => (e, Tree.add_to_tree e)) (Tree.listing es))
    /\ StronglySorted listed_before (Tree.listing es)
    /\ (forall e, In e (Tree.listing es) ->
                  Py.startswith (node_name e) "." = false)
    /\ Permutation (Tree.listing es)
         (filter (fun e => negb (Py.startswith (node_name e) ".")) es).
Proof.
  intros d es prefix. split; [apply add_to_tree_listing|].
  unfold Tree.listing. repeat split.
  - apply filter_strongly_sorted.
    generalize (sorted_sorted Tree.key_le key_le_total key_le_trans es).
    induction 1 as [|x l Hs IH Hx]; constructor; auto.
    eapply Forall_impl; [|exact Hx].
    intros y Hy. now apply key_le_listed_before.
  - intros e He. apply filter_In in He. destruct He as [_ He].
    unfold Tree.visible in He. now apply negb_true_iff in He.
  - assert (Hp := sorted_perm Tree.key_le es).
    clear -Hp. induction Hp; simpl.
    + reflexivity.
    + unfold Tree.visible at 1. destruct (negb _); [constructor|]; exact IHHp.
    + unfold Tree.visible.
      destruct (negb (Py.startswith (node_name x) "."));
        destruct (negb (Py.startswith (node_name y) "."));
        try reflexivity. apply perm_swap.
    + now rewrite IHHp1.
Qed.

(** C4 as the specification words it fails: with a directory [lib] and a
    file [main.py], the file is listed first. *)
Lemma tree_listing_not_dirs_first :
  Tree.listing [D "lib" true []; txt "main.py" "x"]
  = [txt "main.py" "x"; D "lib" true []]
  /\ ~ StronglySorted spec_before
         (Tree.listing [D "lib" true []; txt "main.py" "x"]).
Proof.
  split; [reflexivity|].
  intros H. vm_compute in H. inversion H as [|a l _ Hall]; subst.
  inversion Hall as [|b l' Hb _]; subst.
  destruct Hb as [[Hd _]|[Hk _]]; discriminate.
Qed.

(** ** Statements *)


Lemma adds_nothing r : adds r [] [] 0 = r.
Proof.
  destruct r; unfold adds; simpl.
  now rewrite !app_nil_r, Nat.add_0_r.
Qed.

Lemma adds_adds r ws ps k ws' ps' k' :
  adds (adds r ws ps k) ws' ps' k'
  = adds r (ws ++ ws') (ps ++ ps') (k + k').
Proof.
  unfold adds; simpl. now rewrite <- !app_assoc, Nat.add_assoc.
Qed.

Lemma write_adds t r : write t r = (Ok tt, adds r [t] [] 0).
Proof.
  unfold write, adds. now rewrite app_nil_r, Nat.add_0_r.
Qed.

Lemma print_adds n r : print n r = (Ok tt, adds r [] [n] 0).
Proof.
  unfold print, adds. now rewrite app_nil_r, Nat.add_0_r.
Qed.

Lemma count_file_adds r : count_file r = (Ok tt, adds r [] [] 1).
Proof.
  unfold count_file, adds. now rewrite !app_nil_r, Nat.add_1_r.
Qed.

Lemma for_each_app {A} (body : A -> M unit) l1 l2 r :
  for_each body (l1 ++ l2) r = (for_each body l1 ;; for_each body l2) r.
Proof.
  revert r. induction l1 as [|x l1 IH]; intros r; simpl.
  - reflexivity.
  - unfold bind in *. destruct (body x r) as [[[]|e] r1]; [|reflexivity].
    apply IH.
Qed.

Lemma for_each_map {A B} (g : A -> B) (body : B -> M unit) l r :
  for_each body (map g l) r = for_each (fun x => body (g x)) l r.
Proof.
  revert r. induction l as [|x l IH]; intros r; simpl; [reflexivity|].
  unfold bind. destruct (body (g x) r) as [[[]|e] r1]; [apply IH|reflexivity].
Qed.


Lemma for_each_walked (process : string -> file -> M unit) keep top at_top r :
  for_each (fun t : triple =>
              let '(root, _, files) := t in
              for_each (process root) (sorted_files files))
           (os_walk keep top at_top) r
  = for_each (fun p => process (fst p) (snd p)) (walked keep top at_top) r.
Proof.
  unfold walked. revert r.
  induction (os_walk keep top at_top) as [|[[root dirs] files] ts IH];
    intros r; simpl; [reflexivity|].
  rewrite for_each_app. unfold bind.
  rewrite for_each_map. simpl.
  destruct (for_each _ (sorted_files files) r) as [[[]|e] r1];
    [apply IH|reflexivity].
Qed.

(** ** Counting: the walk against the pre-scan *)



Lemma live_app patterns l1 l2 :
  live patterns (l1 ++ l2) = (live patterns l1 + live patterns l2)%nat.
Proof. unfold live. now rewrite filter_app, length_app. Qed.

Lemma live_cons patterns f l :
  live patterns (f :: l)
  = ((if excluded patterns (fname f) then 0 else 1) + live patterns l)%nat.
Proof. unfold live. simpl. now destruct (excluded patterns (fname f)). Qed.

Lemma live_perm patterns l1 l2 :
  Permutation l1 l2 -> live patterns l1 = live patterns l2.
Proof.
  unfold live. induction 1; simpl; try congruence.
  - destruct (negb _); simpl; congruence.
  - destruct (negb (excluded patterns (fname x)));
      destruct (negb (excluded patterns (fname y))); reflexivity.
Qed.

Lemma sorted_files_perm files : Permutation (sorted_files files) files.
Proof. apply sorted_perm. Qed.

(** Whatever is pruned, the walk meets no more live files than a walk that
    prunes nothing. *)
Lemma walk_node_live_le patterns keep n :
  forall top1 top2,
    (live patterns (flat_map (fun t : triple => snd t)
                      (walk_node keep top1 n))
     <= live patterns (flat_map (fun t : triple => snd t)
                         (walk_node (fun _ => true) top2 n)))%nat.
Proof.
  induction n as [f|d l es IH] using node_forall_ind; intros top1 top2.
  - simpl. lia.
  - destruct l; simpl; [|lia].
    rewrite !live_app. apply Nat.add_le_mono_l.
    induction IH as [|c es Hc _ IHes]; simpl; [lia|].
    rewrite !flat_map_app, !live_app.
    apply Nat.add_le_mono; [|exact IHes].
    destruct c as [f|d' l' es']; [simpl; lia|].
    destruct (keep d'); [apply Hc|apply Nat.le_0_l].
Qed.

Lemma walked_live patterns keep top at_top :
  live patterns (map snd (walked keep top at_top))
  = live patterns (flat_map (fun t : triple => snd t)
                     (os_walk keep top at_top)).
Proof.
  unfold walked.
  induction (os_walk keep top at_top) as [|[[root dirs] files] ts IH];
    simpl; [reflexivity|].
  rewrite map_app, !live_app, IH, map_map, map_id. simpl.
  f_equal. apply live_perm, sorted_files_perm.
Qed.

Lemma walked_live_le_total patterns keep top at_top :
  (live patterns (map snd (walked keep top at_top))
   <= count_total patterns top at_top)%nat.
Proof.
  rewrite walked_live. unfold count_total. fold (live patterns).
  destruct at_top as [n|]; simpl; [apply walk_node_live_le|apply Nat.le_0_l].
Qed.



Lemma bind_ok {A B} (m : M A) (k : A -> M B) r a r' :
  m r = (Ok a, r') -> bind m k r = k a r'.
Proof. unfold bind. now intros ->. Qed.

Lemma bind_raise {A B} (m : M A) (k : A -> M B) r e r' :
  m r = (Raise e, r') -> bind m k r = (Raise e, r').
Proof. unfold bind. now intros ->. Qed.

Lemma progress_step quiet total_files r :
  quiet = true \/ (processed_files r + 1 <= total_files)%nat ->
  unless quiet (print_progress total_files) (adds r [] [] 1)
  = (Ok tt,
     adds r []
       (if quiet then []
        else [Progress (processed_files r + 1) total_files]) 1)
  /\ (quiet = false -> (1 <= processed_files r + 1 <= total_files)%nat).
Proof.
  intros H. destruct quiet; simpl.
  - split; [reflexivity|discriminate].
  - destruct H as [H|H]; [discriminate|].
    unfold print_progress.
    destruct total_files as [|t]; [lia|].
    rewrite print_adds, adds_adds. simpl. split; [reflexivity|]. lia.
Qed.

(** The head every loop body starts with: the counter, then the progress
    line. *)
Lemma count_and_progress quiet total_files (rest : M unit) r :
  quiet = true \/ (processed_files r + 1 <= total_files)%nat ->
  (count_file ;; unless quiet (print_progress total_files) ;; rest) r
  = rest (adds r []
            (if quiet then []
             else [Progress (processed_files r + 1) total_files]) 1).
Proof.
  intros H.
  rewrite (bind_ok _ _ _ _ _ (count_file_adds r)).
  destruct (progress_step quiet total_files r H) as [E _].
  now rewrite (bind_ok _ _ _ _ _ E).
Qed.

(** ** The statements of a loop body *)

Lemma ret_adds r : ret tt r = (Ok tt, adds r [] [] 0).
Proof. unfold ret. now rewrite adds_nothing. Qed.

Lemma ret_any_adds {A} (a : A) r : ret a r = (Ok a, adds r [] [] 0).
Proof. unfold ret. now rewrite adds_nothing. Qed.

Lemma unless_print_adds quiet n r :
  unless quiet (print n) r
  = (Ok tt, adds r [] (if quiet then [] else [n]) 0).
Proof. destruct quiet; simpl; [apply ret_adds|apply print_adds]. Qed.

Lemma write_write_adds a b r :
  (write a ;; write b) r = (Ok tt, adds r [a; b] [] 0).
Proof.
  rewrite (bind_ok _ _ _ _ _ (write_adds a r)), write_adds, adds_adds.
  reflexivity.
Qed.

Lemma write_print_adds a n r :
  (write a ;; print n) r = (Ok tt, adds r [a] [n] 0).
Proof.
  rewrite (bind_ok _ _ _ _ _ (write_adds a r)), print_adds, adds_adds.
  reflexivity.
Qed.

Lemma print_ret_adds {A} n (a : A) r :
  (print n ;; ret a) r = (Ok a, adds r [] [n] 0).
Proof. now rewrite (bind_ok _ _ _ _ _ (print_adds n r)). Qed.

Lemma force_text_is_code ext :
  Py.mem ext Root.force_text_extensions = true ->
  Py.mem ext Root.code_extensions = true.
Proof.
  unfold Py.mem, Root.force_text_extensions, Root.code_extensions.
  cbn [existsb].
  repeat (destruct (String.eqb ext _); try reflexivity).
  discriminate.
Qed.

Lemma not_too_large size max_size :
  size <= max_size -> (size >? max_size) = false.
Proof. intros H. rewrite Z.gtb_ltb. apply Z.ltb_ge. lia. Qed.

(** The guard of the block in [src/combine_files.py] is the test on the
    force-text extensions alone: they are all code extensions, for which
    [is_binary] answers [False] without a look at the file, and [.swift]
    is one of them. *)
Lemma root_guard file_path data :
  String.eqb (Py.lower (Path.suffix file_path)) ".swift"
  || (negb (Root.is_binary file_path data)
      && Py.mem (Py.lower (Path.suffix file_path))
           Root.force_text_extensions)
  = Py.mem (Py.lower (Path.suffix file_path)) Root.force_text_extensions.
Proof.
  set (ext := Py.lower (Path.suffix file_path)).
  destruct (Py.mem ext Root.force_text_extensions) eqn:Ef.
  - unfold Root.is_binary. fold ext. rewrite (force_text_is_code _ Ef).
    cbn [negb andb]. apply orb_true_r.
  - rewrite andb_false_r, orb_false_r.
    destruct (String.eqb ext ".swift") eqn:E; [|reflexivity].
    apply String.eqb_eq in E. rewrite E in Ef. discriminate.
Qed.

(** ** One file in each variant *)

Lemma root_process_skips input_dir max_size patterns quiet total root f r :
  excluded patterns (fname f) = true ->
  Root.process input_dir max_size patterns quiet total root f r = (Ok tt, r).
Proof. intros Ex. unfold Root.process. now rewrite Ex. Qed.

Lemma src_process_skips input_dir max_size patterns quiet total root f r :
  excluded patterns (fname f) = true ->
  Src.process input_dir max_size patterns quiet total root f r = (Ok tt, r).
Proof. intros Ex. unfold Src.process. now rewrite Ex. Qed.

Lemma lib_process_skips processor input_dir patterns quiet total root f r :
  excluded patterns (fname f) = true ->
  Lib.process processor input_dir patterns quiet total root f r = (Ok tt, r).
Proof. intros Ex. unfold Lib.process. now rewrite Ex. Qed.

(** A file that passes the filename filter, once it is counted and its
    progress line is printed. *)
Lemma root_process_live input_dir max_size patterns quiet total root f r :
  excluded patterns (fname f) = false ->
  quiet = true \/ (processed_files r + 1 <= total)%nat ->
  Root.process input_dir max_size patterns quiet total root f r
  = (let file_path := Path.join root (fname f) in
     match getsize f with
     | inr reason => raise (OSError reason)
     | inl size =>
         if size >? max_size then
           unless quiet (print (SkipTooLarge file_path))
         else
           let file_ext := Py.lower (Path.suffix file_path) in
           if String.eqb file_ext ".swift"
              || (negb (Root.is_binary file_path (fdata f))
                  && Py.mem file_ext Root.force_text_extensions)
           then
             match Root.read_file_content file_path (fdata f) with
             | inl content =>
                 write (block_header (Path.relpath file_path input_dir)) ;;
                 write content
             | inr message => print (ErrorProcessing file_path message)
             end
           else unless quiet (print (SkipBinary file_path))
     end)
      (adds r []
         (if quiet then [] else [Progress (processed_files r + 1) total]) 1).
Proof.
  intros Ex H. unfold Root.process. rewrite Ex.
  now rewrite (count_and_progress _ _ _ _ H).
Qed.

Lemma src_process_live input_dir max_size patterns quiet total root f r :
  excluded patterns (fname f) = false ->
  quiet = true \/ (processed_files r + 1 <= total)%nat ->
  Src.process input_dir max_size patterns quiet total root f r
  = (let file_path := Path.join root (fname f) in
     match getsize f with
     | inr reason => raise (OSError reason)
     | inl size =>
         if size >? max_size then
           unless quiet (print (SkipTooLarge file_path))
         else if Src.is_binary file_path (fdata f) then
           unless quiet (print (SkipBinary file_path))
         else
           match fdata f with
           | Unreadable reason | Gone reason =>
               print (ErrorProcessing file_path reason)
           | Readable content =>
               write (block_header (Path.relpath file_path input_dir)) ;;
               match Codec.decode Codec.UTF8 content with
               | Some t => write (Codec.universal_newlines t)
               | None =>
                   print (ErrorProcessing file_path
                            "'utf-8' codec can't decode")
               end
           end
     end)
      (adds r []
         (if quiet then [] else [Progress (processed_files r + 1) total]) 1).
Proof.
  intros Ex H. unfold Src.process. rewrite Ex.
  now rewrite (count_and_progress _ _ _ _ H).
Qed.

Lemma lib_process_live processor input_dir patterns quiet total root f r :
  excluded patterns (fname f) = false ->
  quiet = true \/ (processed_files r + 1 <= total)%nat ->
  Lib.process processor input_dir patterns quiet total root f r
  = (let file_path := Path.join root (fname f) in
     match getsize f with
     | inr reason => raise (OSError reason)
     | inl size =>
         if size >? Lib.max_size processor then
           unless quiet (print (SkipTooLarge file_path))
         else
           let file_ext := Py.lower (Path.suffix file_path) in
           if String.eqb file_ext ".swift"
              || negb (Lib.is_binary file_path (fdata f))
           then
             bind (Lib.read_file_content file_path (fdata f))
               (fun content =>
                  match content with
                  | Some (c :: cs) =>
                      write (block_header
                               (Path.relpath file_path input_dir)) ;;
                      write (c :: cs)
                  | _ => ret tt
                  end)
           else unless quiet (print (SkipBinary file_path))
     end)
      (adds r []
         (if quiet then [] else [Progress (processed_files r + 1) total]) 1).
Proof.
  intros Ex H. unfold Lib.process. rewrite Ex.
  now rewrite (count_and_progress _ _ _ _ H).
Qed.

Lemma forall_no_progress_unless (quiet : bool) (n : notice) :
  no_progress n -> Forall no_progress (if quiet then [] else [n]).
Proof. intros H. destruct quiet; repeat constructor; exact H. Qed.

(** Closes the notices of a branch of a loop body: they are no progress
    lines, and errors only when quiet. *)
Ltac close_notes :=
  split;
  [ try (apply forall_no_progress_unless; exact I);
    repeat constructor
  | let Hq := fresh "Hq" in
    intros Hq; try rewrite Hq; repeat constructor ].

(** What the body of the loop does for a file that passes the filename
    filter, in [src/combine_files.py]: it counts it, prints the progress
    line, and then either raises where [os.path.getsize] does, or writes
    the block of the file and prints its notices.  Neither the block nor
    the notices depend on the run so far or on the total. *)
Lemma root_process_steps input_dir max_size patterns quiet root f :
  excluded patterns (fname f) = false ->
  exists notes,
    (forall total r,
        quiet = true \/ (processed_files r + 1 <= total)%nat ->
        Root.process input_dir max_size patterns quiet total root f r
        = (getsize_end f,
           adds r (root_block input_dir max_size patterns root f)
             ((if quiet then []
               else [Progress (processed_files r + 1) total]) ++ notes) 1))
    /\ Forall no_progress notes
    /\ (quiet = true -> Forall is_error notes).
Proof.
  intros Ex. unfold root_block, getsize_end. rewrite Ex.
  destruct (getsize f) as [size|reason] eqn:Eg.
  - assert (Hsize : size = fsize f).
    { unfold getsize in Eg. destruct (fdata f); congruence. }
    subst size.
    destruct (fsize f >? max_size) eqn:Es;
      [|destruct (Py.mem (Py.lower (Path.suffix (Path.join root (fname f))))
                   Root.force_text_extensions) eqn:Ef;
        [destruct (fdata f) as [content|reason|reason] eqn:Ed|]];
      (eexists; split;
       [ intros total r H;
         rewrite (root_process_live _ _ _ _ _ _ f r Ex H); cbv zeta;
         rewrite Eg, Es, ?Ed, ?root_guard, ?Ef; cbv beta iota;
         unfold Root.read_file_content;
         rewrite ?unless_print_adds, ?write_write_adds, ?print_adds,
           ?adds_adds;
         reflexivity
       | close_notes ]).
  - exists []. split; [|split; [constructor|intros _; constructor]].
    intros total r H.
    rewrite (root_process_live _ _ _ _ _ _ f r Ex H); cbv zeta.
    rewrite Eg, app_nil_r. unfold raise.
    assert (Ed : exists reason', fdata f = Gone reason').
    { unfold getsize in Eg. destruct (fdata f); try discriminate. eauto. }
    destruct Ed as [reason' Ed]. rewrite Ed.
    now destruct (fsize f >? max_size); [|destruct (Py.mem _ _)].
Qed.

Lemma getsize_sized f size : getsize f = inl size -> size = fsize f.
Proof. unfold getsize. destruct (fdata f); congruence. Qed.

Lemma src_process_steps input_dir max_size patterns quiet root f :
  excluded patterns (fname f) = false ->
  exists ws notes,
    (forall total r,
        quiet = true \/ (processed_files r + 1 <= total)%nat ->
        Src.process input_dir max_size patterns quiet total root f r
        = (getsize_end f,
           adds r ws
             ((if quiet then []
               else [Progress (processed_files r + 1) total]) ++ notes) 1))
    /\ Forall no_progress notes
    /\ (quiet = true -> Forall is_error notes).
Proof.
  intros Ex. unfold getsize_end.
  destruct (getsize f) as [size|reason] eqn:Eg.
  - destruct (size >? max_size) eqn:Es;
      [|destruct (Src.is_binary (Path.join root (fname f)) (fdata f)) eqn:Eb;
        [|destruct (fdata f) as [content|reason|reason] eqn:Ed;
          [destruct (Codec.decode Codec.UTF8 content) eqn:Eu| |]]];
      (eexists _, _; split;
       [ intros total r H;
         rewrite (src_process_live _ _ _ _ _ _ f r Ex H); cbv zeta;
         rewrite Eg, Es, ?Ed, ?Eb, ?Eu; cbv beta iota;
         rewrite ?unless_print_adds, ?write_write_adds, ?write_print_adds,
           ?print_adds, ?adds_adds;
         reflexivity
       | close_notes ]).
  - exists [], []. split; [|split; [constructor|intros _; constructor]].
    intros total r H.
    rewrite (src_process_live _ _ _ _ _ _ f r Ex H); cbv zeta.
    now rewrite Eg, app_nil_r.
Qed.

Lemma lib_process_steps processor input_dir patterns quiet root f :
  excluded patterns (fname f) = false ->
  exists ws notes,
    (forall total r,
        quiet = true \/ (processed_files r + 1 <= total)%nat ->
        Lib.process processor input_dir patterns quiet total root f r
        = (getsize_end f,
           adds r ws
             ((if quiet then []
               else [Progress (processed_files r + 1) total]) ++ notes) 1))
    /\ Forall no_progress notes
    /\ (quiet = true -> Forall is_error notes).
Proof.
  intros Ex. unfold getsize_end.
  destruct (getsize f) as [size|reason] eqn:Eg.
  - destruct (size >? Lib.max_size processor) eqn:Es;
      [|destruct (String.eqb
                    (Py.lower (Path.suffix (Path.join root (fname f))))
                    ".swift"
                  || negb (Lib.is_binary (Path.join root (fname f))
                             (fdata f))) eqn:Eb;
        [destruct (fdata f) as [content|reason|reason] eqn:Ed;
         [destruct (Lib.try_read Lib.encodings content) eqn:Et| |]|]];
      (eexists _, _; split;
       [ intros total r H;
         rewrite (lib_process_live _ _ _ _ _ _ f r Ex H); cbv zeta;
         rewrite Eg, Es, ?Ed, ?Eb; cbv beta iota;
         unfold Lib.read_file_content;
         rewrite ?(bind_ok _ _ _ _ _ (ret_any_adds _ _)),
           ?(bind_ok _ _ _ _ _ (print_ret_adds _ _ _)), ?Et;
         rewrite ?unless_print_adds, ?write_write_adds, ?ret_adds,
           ?adds_adds;
         reflexivity
       | close_notes ]).
  - exists [], []. split; [|split; [constructor|intros _; constructor]].
    intros total r H.
    rewrite (lib_process_live _ _ _ _ _ _ f r Ex H); cbv zeta.
    now rewrite Eg, app_nil_r.
Qed.

(** ** The files a loop gets to *)

Lemma reached_live_le patterns l :
  (live patterns (map snd (reached patterns l))
   <= live patterns (map snd l))%nat.
Proof.
  induction l as [|q l IH]; cbn [reached map]; [lia|].
  destruct (excluded patterns (fname (snd q)) || stat_ok (snd q));
    cbn [map]; rewrite !live_cons; cbn [map live]; [lia|].
  unfold live at 1. cbn [filter List.length]. lia.
Qed.

Lemma stats_ok_reached patterns l :
  stats_ok patterns l = true -> reached patterns l = l.
Proof.
  unfold stats_ok. induction l as [|q l IH]; cbn [forallb reached];
    [reflexivity|].
  intros H. apply andb_true_iff in H. destruct H as [Hq Hl].
  now rewrite Hq, (IH Hl).
Qed.

Lemma walk_end_cases patterns l :
  if stats_ok patterns l then walk_end patterns l = Ok tt
  else exists reason, walk_end patterns l = Raise (OSError reason).
Proof.
  unfold stats_ok. induction l as [|q l IH]; cbn [forallb walk_end];
    [reflexivity|].
  destruct (excluded patterns (fname (snd q)) || stat_ok (snd q)) eqn:E;
    cbn [andb]; [exact IH|].
  apply orb_false_iff in E. destruct E as [_ E].
  unfold stat_ok in E. unfold getsize_end.
  destruct (getsize (snd q)) as [size|reason]; [discriminate|eauto].
Qed.


Lemma walk_end_never_divides patterns l :
  walk_end patterns l <> Raise ZeroDivisionError.
Proof.
  pose proof (walk_end_cases patterns l) as H.
  destruct (stats_ok patterns l).
  - rewrite H. discriminate.
  - destruct H as [reason H]. rewrite H. discriminate.
Qed.

(** ** What a loop prints *)

Lemma filter_no_progress notes :
  Forall no_progress notes -> filter is_progress notes = [].
Proof.
  induction 1 as [|n l Hn _ IH]; simpl; [reflexivity|].
  destruct n; simpl in *; try exact IH. contradiction.
Qed.

Lemma numbered_progress quiet total items :
  Forall (Forall no_progress) items ->
  forall c,
    filter is_progress (numbered quiet total c items)
    = if quiet then []
      else map (fun i => Progress i total) (seq (c + 1) (List.length items)).
Proof.
  induction 1 as [|notes items Hn _ IH]; intros c; cbn [numbered].
  - now destruct quiet.
  - rewrite !filter_app, (filter_no_progress _ Hn), IH.
    destruct quiet; [reflexivity|].
    cbn [filter is_progress app List.length seq map].
    now replace (c + 1 + 1)%nat with (S (c + 1)) by lia.
Qed.

Lemma numbered_quiet total c items :
  numbered true total c items = List.concat items.
Proof.
  revert c. induction items as [|notes items IH]; intros c; cbn [numbered];
    [reflexivity|].
  now rewrite IH.
Qed.


Lemma forall_progress_ok_notes notes :
  Forall no_progress notes -> Forall progress_ok notes.
Proof.
  intros H. eapply Forall_impl; [|exact H]. now intros [].
Qed.

Lemma numbered_ok quiet total items :
  Forall (Forall no_progress) items ->
  forall c,
    quiet = true \/ (c + List.length items <= total)%nat ->
    Forall progress_ok (numbered quiet total c items).
Proof.
  induction 1 as [|notes items Hn _ IH]; intros c Hc; cbn [numbered];
    [constructor|].
  cbn [List.length] in Hc. rewrite !Forall_app. repeat split.
  - destruct quiet; [constructor|].
    destruct Hc as [Hc|Hc]; [discriminate|].
    repeat constructor; simpl; lia.
  - now apply forall_progress_ok_notes.
  - apply IH. destruct Hc as [Hc|Hc]; [now left|right; lia].
Qed.

(** ** The loop over the files of a walk *)

Section Walking.
Variables (patterns : list string) (quiet : bool).
Variable process : nat -> string -> file -> M unit.

(** What the three loop bodies have in common.  A file the filename
    filter stops changes nothing.  Any other file is counted and gets its
    progress line; the body then raises where [os.path.getsize] does, and
    otherwise writes and prints something that depends on the file
    alone. *)
Hypothesis process_skips : forall total root f r,
  excluded patterns (fname f) = true -> process total root f r = (Ok tt, r).

Hypothesis process_steps : forall root f,
  excluded patterns (fname f) = false ->
  exists ws notes,
    (forall total r,
        quiet = true \/ (processed_files r + 1 <= total)%nat ->
        process total root f r
        = (getsize_end f,
           adds r ws
             ((if quiet then []
               else [Progress (processed_files r + 1) total]) ++ notes) 1))
    /\ Forall no_progress notes
    /\ (quiet = true -> Forall is_error notes).

(** The loop over a list of files: what it writes, and the notices of
    every file it counts, are fixed by the files; it counts the files
    that pass the filename filter up to the first one whose size cannot
    be taken, and ends there if there is one. *)
Lemma walk_shape (l : list (string * file)) :
  exists ws items,
    List.length items = live patterns (map snd (reached patterns l))
    /\ Forall (Forall no_progress) items
    /\ (quiet = true -> Forall (Forall is_error) items)
    /\ forall total r,
         quiet = true
         \/ (processed_files r + List.length items <= total)%nat ->
         for_each (fun q => process total (fst q) (snd q)) l r
         = (walk_end patterns l,
            adds r ws (numbered quiet total (processed_files r) items)
              (List.length items)).
Proof.
  induction l as [|[root f] l IH].
  - exists [], []. repeat split; try constructor.
    intros total r _. simpl. unfold ret. now rewrite adds_nothing.
  - destruct IH as (ws2 & items2 & Hlen & Hnp & Herr & Hrun).
    cbn [reached walk_end for_each fst snd].
    destruct (excluded patterns (fname f)) eqn:Ex; cbn [orb].
    + exists ws2, items2.
      split; [cbn [map snd]; now rewrite live_cons, Ex|].
      split; [exact Hnp|]. split; [exact Herr|].
      intros total r H.
      rewrite (bind_ok _ _ _ _ _ (process_skips total root f r Ex)).
      now apply Hrun.
    + destruct (process_steps root f Ex) as (ws1 & notes & Hstep & Hn1 & He1).
      unfold stat_ok, getsize_end in Hstep |- *.
      destruct (getsize f) as [size|reason] eqn:Eg.
      * exists (ws1 ++ ws2)%list, (notes :: items2).
        split;
          [cbn [map snd List.length]; now rewrite live_cons, Ex, <- Hlen|].
        split; [now constructor|].
        split; [intros Hq; constructor; auto|].
        intros total r H. cbn [List.length] in H.
        rewrite (bind_ok _ _ _ _ _ (Hstep total r
                   ltac:(destruct H as [H|H]; [now left|right; lia]))).
        rewrite Hrun
          by (destruct H as [H|H]; [now left|right; simpl; lia]).
        rewrite adds_adds. cbn [numbered adds processed_files List.length].
        now rewrite <- !app_assoc.
      * exists ws1, [notes].
        split; [cbn [map snd List.length]; now rewrite live_cons, Ex|].
        split; [now repeat constructor|].
        split; [intros Hq; repeat constructor; auto|].
        intros total r H. cbn [List.length] in H.
        rewrite (bind_raise _ _ _ _ _ (Hstep total r
                   ltac:(destruct H as [H|H]; [now left|right; simpl in H; lia]))).
        cbn [numbered]. now rewrite !app_nil_r.
Qed.
End Walking.

(** ** The three walks *)

Lemma root_walk_writes input_dir max_size patterns quiet total
  (l : list (string * file)) :
  forall r,
    quiet = true
    \/ (processed_files r + live patterns (map snd (reached patterns l))
        <= total)%nat ->
    exists o ps k,
      for_each (fun q => Root.process input_dir max_size patterns quiet total
                           (fst q) (snd q)) l r
      = (o,
         adds r
           (flat_map (fun q => root_block input_dir max_size patterns
                                 (fst q) (snd q)) (reached patterns l))
           ps k).
Proof.
  induction l as [|[root f] l IH]; intros r Hle.
  - exists (Ok tt), [], O. simpl. unfold ret. now rewrite adds_nothing.
  - cbn [reached for_each fst snd] in *.
    destruct (excluded patterns (fname f)) eqn:Ex; cbn [orb] in *.
    + cbn [map snd flat_map fst] in *. rewrite live_cons, Ex in Hle.
      rewrite (bind_ok _ _ _ _ _
                 (root_process_skips _ _ _ _ _ _ _ _ Ex)).
      unfold root_block at 1. rewrite Ex. now apply IH.
    + destruct (root_process_steps input_dir max_size patterns quiet root f Ex)
        as (notes & Hstep & _).
      unfold stat_ok, getsize_end in Hstep, Hle |- *.
      destruct (getsize f) as [size|reason] eqn:Eg;
        cbn [map snd flat_map fst] in *; rewrite live_cons, Ex in Hle.
      * rewrite (bind_ok _ _ _ _ _ (Hstep total r
                   ltac:(destruct Hle as [H|H]; [now left|right; lia]))).
        match goal with
        | |- context [for_each _ l ?r1] =>
            destruct (IH r1) as (o & ps & k & E)
        end.
        { destruct Hle as [H|H]; [now left|right; simpl; lia]. }
        rewrite E, adds_adds. eauto.
      * rewrite (bind_raise _ _ _ _ _ (Hstep total r
                   ltac:(destruct Hle as [H|H]; [now left|right; lia]))).
        rewrite app_nil_r. eauto.
Qed.

Lemma adds_written_inj r ws ps k ws' ps' k' :
  adds r ws ps k = adds r ws' ps' k' -> ws = ws' /\ ps = ps'.
Proof.
  unfold adds. intros [= Hw Hp _].
  split; eapply app_inv_head; eassumption.
Qed.

(** The walk of [src/combine_files.py] over a directory. *)
Lemma root_walk_shape input_dir max_size patterns quiet at_top :
  exists items,
    List.length items
    = live patterns
        (map snd (reached patterns (candidates patterns input_dir at_top)))
    /\ Forall (Forall no_progress) items
    /\ (quiet = true -> Forall (Forall is_error) items)
    /\ forall total r,
         quiet = true
         \/ (processed_files r + List.length items <= total)%nat ->
         Root.walk input_dir max_size patterns quiet total at_top r
         = (walk_end patterns (candidates patterns input_dir at_top),
            adds r
              (flat_map (fun q => root_block input_dir max_size patterns
                                    (fst q) (snd q))
                 (reached patterns (candidates patterns input_dir at_top)))
              (numbered quiet total (processed_files r) items)
              (List.length items)).
Proof.
  destruct (walk_shape patterns quiet
              (fun total => Root.process input_dir max_size patterns quiet
                              total)
              (fun total =>
                 root_process_skips input_dir max_size patterns quiet total)
              (fun root f Ex =>
                 match root_process_steps input_dir max_size patterns quiet
                         root f Ex with
                 | ex_intro _ notes H => ex_intro _ _ (ex_intro _ notes H)
                 end)
              (candidates patterns input_dir at_top))
    as (ws & items & H1 & H2 & H3 & H4).
  exists items. repeat split; auto. intros total r H.
  unfold Root.walk, Root.visit. rewrite for_each_walked.
  change (walked (Root.keep patterns) input_dir at_top)
    with (candidates patterns input_dir at_top).
  rewrite (H4 total r H). f_equal. f_equal.
  destruct (root_walk_writes input_dir max_size patterns quiet
              (List.length items) (candidates patterns input_dir at_top)
              start) as (o & ps & k & E).
  { right. rewrite H1. simpl. lia. }
  rewrite (H4 (List.length items) start) in E by (right; simpl; lia).
  apply (f_equal snd) in E. cbn [snd] in E.
  now apply adds_written_inj in E.
Qed.

Lemma src_walk_shape input_dir max_size patterns quiet at_top :
  exists ws items,
    List.length items
    = live patterns
        (map snd (reached patterns (candidates patterns input_dir at_top)))
    /\ Forall (Forall no_progress) items
    /\ (quiet = true -> Forall (Forall is_error) items)
    /\ forall total r,
         quiet = true
         \/ (processed_files r + List.length items <= total)%nat ->
         Src.walk input_dir max_size patterns quiet total at_top r
         = (walk_end patterns (candidates patterns input_dir at_top),
            adds r ws (numbered quiet total (processed_files r) items)
              (List.length items)).
Proof.
  destruct (walk_shape patterns quiet
              (fun total => Src.process input_dir max_size patterns quiet
                              total)
              (fun total =>
                 src_process_skips input_dir max_size patterns quiet total)
              (src_process_steps input_dir max_size patterns quiet)
              (candidates patterns input_dir at_top))
    as (ws & items & H1 & H2 & H3 & H4).
  exists ws, items. repeat split; auto. intros total r H.
  unfold Src.walk, Src.visit. rewrite for_each_walked. now apply H4.
Qed.

Lemma lib_walk_shape processor input_dir patterns quiet at_top :
  exists ws items,
    List.length items
    = live patterns
        (map snd (reached patterns (candidates patterns input_dir at_top)))
    /\ Forall (Forall no_progress) items
    /\ (quiet = true -> Forall (Forall is_error) items)
    /\ forall total r,
         quiet = true
         \/ (processed_files r + List.length items <= total)%nat ->
         Lib.walk processor input_dir patterns quiet total at_top r
         = (walk_end patterns (candidates patterns input_dir at_top),
            adds r ws (numbered quiet total (processed_files r) items)
              (List.length items)).
Proof.
  destruct (walk_shape patterns quiet
              (fun total => Lib.process processor input_dir patterns quiet
                              total)
              (fun total =>
                 lib_process_skips processor input_dir patterns quiet total)
              (lib_process_steps processor input_dir patterns quiet)
              (candidates patterns input_dir at_top))
    as (ws & items & H1 & H2 & H3 & H4).
  exists ws, items. repeat split; auto. intros total r H.
  unfold Lib.walk, Lib.visit. rewrite for_each_walked. now apply H4.
Qed.

(** On a directory that is the same for the pre-scan and for the walk, the
    pre-scan has counted every file the walk counts. *)
Lemma candidates_le_total patterns input_dir at_top :
  (live patterns
     (map snd (reached patterns (candidates patterns input_dir at_top)))
   <= count_total patterns input_dir at_top)%nat.
Proof.
  etransitivity; [apply reached_live_le|apply walked_live_le_total].
Qed.

(** ** The frame around the walk *)

Lemma frame_run stamp ok pre post no_tree quiet (walkm : M unit) o ws ps k :
  (forall ws0,
      walkm (adds start ws0 [] 0)
      = (o, adds (adds start ws0 [] 0) ws ps k)) ->
  with_output_file (World stamp ok pre post)
    (write_tree (World stamp ok pre post) no_tree ;; walkm ;;
     unless quiet (print EndLine))
  = framed stamp ok post no_tree quiet o ws ps.
Proof.
  intros Hwalk. unfold with_output_file, framed. cbn [out_ok].
  destruct ok; [|reflexivity].
  unfold write_tree, tree_section, tree_ok, Tree.get_file_tree.
  cbn [after now].
  assert (Hrest : forall ws0, exists k',
             (walkm ;; unless quiet (print EndLine)) (adds start ws0 [] 0)
             = (o, adds start (ws0 ++ ws) (ps ++ closing quiet o) k')).
  { intros ws0. destruct o as [[]|e]; eexists.
    - rewrite (bind_ok _ _ _ _ _ (Hwalk ws0)), unless_print_adds.
      rewrite !adds_adds, app_nil_r. reflexivity.
    - rewrite (bind_raise _ _ _ _ _ (Hwalk ws0)), adds_adds.
      cbn [closing]. now rewrite !app_nil_r. }
  destruct no_tree; cbn [orb].
  - destruct (Hrest []) as [k' E].
    rewrite (bind_ok _ _ _ _ _ (ret_adds start)), E. reflexivity.
  - destruct post as [n|]; [|reflexivity].
    destruct (Tree.add_to_tree n []) as [lines|]; [|reflexivity].
    rewrite (bind_ok _ _ _ _ _ (write_write_adds _ section_marker start)).
    match goal with
    | |- context [adds start ?ws0 [] 0] => destruct (Hrest ws0) as [k' E]
    end.
    rewrite E. reflexivity.
Qed.

(** Two walks that do the same on every run write the same, end alike,
    and in quiet mode print the same. *)
Lemma agree_walks quiet (walk1 walk2 : nat -> M unit)
  o1 ws1 items1 o2 ws2 items2 :
  (forall total r,
      quiet = true \/ (processed_files r + List.length items1 <= total)%nat ->
      walk1 total r
      = (o1, adds r ws1 (numbered quiet total (processed_files r) items1)
               (List.length items1))) ->
  (forall total r,
      quiet = true \/ (processed_files r + List.length items2 <= total)%nat ->
      walk2 total r
      = (o2, adds r ws2 (numbered quiet total (processed_files r) items2)
               (List.length items2))) ->
  (forall total r, walk1 total r = walk2 total r) ->
  o1 = o2 /\ ws1 = ws2
  /\ (quiet = true ->
      forall t1 t2, numbered quiet t1 0 items1 = numbered quiet t2 0 items2).
Proof.
  intros H1 H2 Hsame.
  set (T := (List.length items1 + List.length items2)%nat).
  specialize (H1 T start ltac:(right; simpl; lia)).
  specialize (H2 T start ltac:(right; simpl; lia)).
  rewrite Hsame, H2 in H1. cbn [processed_files start] in H1.
  pose proof (f_equal fst H1) as Ho. pose proof (f_equal snd H1) as Hr.
  cbn [fst snd] in Ho, Hr. apply adds_written_inj in Hr.
  destruct Hr as [Hw Hp]. repeat split; auto.
  intros Hq t1 t2. subst quiet.
  rewrite !numbered_quiet in *. congruence.
Qed.

(** The result of [combine_files] in the three variants, whenever the
    progress lines can be computed: in quiet mode, or when the pre-scan
    counted at least the files the walk counts. *)
Lemma root_run_shape input_dir max_size_mb patterns quiet post :
  exists items,
    List.length items
    = live patterns
        (map snd (reached patterns (candidates patterns input_dir post)))
    /\ Forall (Forall no_progress) items
    /\ (quiet = true -> Forall (Forall is_error) items)
    /\ forall stamp ok pre no_tree,
         quiet = true
         \/ (List.length items <= count_total patterns input_dir pre)%nat ->
         Root.combine_files (World stamp ok pre post) input_dir max_size_mb
           (Some patterns) no_tree quiet
         = framed stamp ok post no_tree quiet
             (walk_end patterns (candidates patterns input_dir post))
             (flat_map (fun q => root_block input_dir
                                   (max_size_mb * 1024 * 1024) patterns
                                   (fst q) (snd q))
                (reached patterns (candidates patterns input_dir post)))
             (numbered quiet (count_total patterns input_dir pre) 0 items).
Proof.
  destruct (root_walk_shape input_dir (max_size_mb * 1024 * 1024) patterns
              quiet post) as (items & H1 & H2 & H3 & H4).
  exists items. repeat split; auto.
  intros stamp ok pre no_tree H. unfold Root.combine_files.
  cbn [before after]. apply frame_run with (k := List.length items).
  intros ws0. apply H4. exact H.
Qed.

Lemma src_run_shape input_dir max_size_mb patterns quiet post :
  exists ws items,
    List.length items
    = live patterns
        (map snd (reached patterns (candidates patterns input_dir post)))
    /\ Forall (Forall no_progress) items
    /\ (quiet = true -> Forall (Forall is_error) items)
    /\ forall stamp ok pre no_tree,
         quiet = true
         \/ (List.length items <= count_total patterns input_dir pre)%nat ->
         Src.combine_files (World stamp ok pre post) input_dir max_size_mb
           (Some patterns) no_tree quiet
         = framed stamp ok post no_tree quiet
             (walk_end patterns (candidates patterns input_dir post))
             ws
             (numbered quiet (count_total patterns input_dir pre) 0 items).
Proof.
  destruct (src_walk_shape input_dir (max_size_mb * 1024 * 1024) patterns
              quiet post) as (ws & items & H1 & H2 & H3 & H4).
  exists ws, items. repeat split; auto.
  intros stamp ok pre no_tree H. unfold Src.combine_files.
  cbn [before after]. apply frame_run with (k := List.length items).
  intros ws0. apply H4. exact H.
Qed.

Lemma lib_run_shape processor input_dir patterns quiet post :
  exists ws items,
    List.length items
    = live patterns
        (map snd (reached patterns (candidates patterns input_dir post)))
    /\ Forall (Forall no_progress) items
    /\ (quiet = true -> Forall (Forall is_error) items)
    /\ forall stamp ok pre no_tree,
         quiet = true
         \/ (List.length items <= count_total patterns input_dir pre)%nat ->
         Lib.combine_files processor (World stamp ok pre post) input_dir
           (Some patterns) no_tree quiet
         = framed_lib
             (framed stamp ok post no_tree quiet
                (walk_end patterns (candidates patterns input_dir post))
                ws
                (numbered quiet (count_total patterns input_dir pre) 0
                   items)).
Proof.
  destruct (lib_walk_shape processor input_dir patterns quiet post)
    as (ws & items & H1 & H2 & H3 & H4).
  exists ws, items. repeat split; auto.
  intros stamp ok pre no_tree H. unfold Lib.combine_files.
  cbn [before after].
  rewrite (frame_run stamp ok pre post no_tree quiet _ _ ws
             (numbered quiet (count_total patterns input_dir pre) 0 items)
             (List.length items)
             (fun ws0 => H4 (count_total patterns input_dir pre)
                           (adds start ws0 [] 0) H)).
  reflexivity.
Qed.

(** What the frame returns and prints. *)
Lemma framed_returned stamp ok post no_tree quiet o ws ps :
  returned (framed stamp ok post no_tree quiet o ws ps)
  = if ok
    then if no_tree || tree_ok post then o else Raise (OSError "scandir")
    else Raise (OSError "open").
Proof. unfold framed. now destruct ok, (no_tree || tree_ok post). Qed.

Lemma framed_stdout stamp ok post no_tree quiet o ws ps :
  stdout (framed stamp ok post no_tree quiet o ws ps)
  = if ok && (no_tree || tree_ok post) then (ps ++ closing quiet o)%list
    else [].
Proof. unfold framed. now destruct ok, (no_tree || tree_ok post). Qed.

Lemma framed_output stamp ok post no_tree quiet o ws ps :
  output (framed stamp ok post no_tree quiet o ws ps)
  = if ok
    then if no_tree || tree_ok post
         then Some (List.concat (tree_section stamp post no_tree ++ ws))
         else Some []
    else None.
Proof. unfold framed. now destruct ok, (no_tree || tree_ok post). Qed.

Lemma framed_lib_returned patterns l stamp ok post no_tree quiet ws ps :
  returned (framed_lib (framed stamp ok post no_tree quiet
                          (walk_end patterns l) ws ps))
  = Ok (ok && (no_tree || tree_ok post) && stats_ok patterns l).
Proof.
  unfold framed_lib. rewrite framed_returned.
  pose proof (walk_end_cases patterns l) as H.
  destruct ok, (no_tree || tree_ok post); cbn [andb]; try reflexivity.
  destruct (stats_ok patterns l).
  - now rewrite H.
  - destruct H as [reason ->]. reflexivity.
Qed.

Lemma framed_lib_stdout stamp ok post no_tree quiet o ws ps :
  stdout (framed_lib (framed stamp ok post no_tree quiet o ws ps))
  = (stdout (framed stamp ok post no_tree quiet o ws ps)
     ++ match returned (framed stamp ok post no_tree quiet o ws ps) with
        | Ok _ => []
        | Raise _ => [LogError "Error combining files"]
        end)%list.
Proof.
  unfold framed_lib. destruct (returned _); cbn [stdout];
    now rewrite ?app_nil_r.
Qed.


(** ** What [combine_files] returns (C5, C6, C10) *)


(** The frame of [lib/combine_files.py] when the progress line can always
    be computed. *)
Lemma lib_returns processor w input_dir patterns no_tree quiet :
  quiet = true \/ before w = after w ->
  returned (Lib.combine_files processor w input_dir (Some patterns)
              no_tree quiet)
  = Ok (out_ok w && (no_tree || tree_ok (after w))
        && stats_ok patterns (candidates patterns input_dir (after w))).
Proof.
  intros H. destruct w as [stamp ok pre post]. cbn [out_ok before after] in *.
  destruct (lib_run_shape processor input_dir patterns quiet post)
    as (ws & items & H1 & _ & _ & H4).
  rewrite H4; [apply framed_lib_returned|].
  destruct H as [H|H]; [now left|right]. subst pre. rewrite H1.
  apply candidates_le_total.
Qed.




(** The third way to [False]: the directory lists [b.txt], but its size
    cannot be taken.  The output file opens, no tree listing is asked
    for, [a.txt] is written, and [combine_files] returns [False];
    [src/combine_files.py] lets the [OSError] escape. *)
Lemma combine_stops_where_getsize_fails :
  let w := static (D "proj" true
                     [txt "a.txt" "hello";
                      F (File "b.txt" 0 (Gone "No such file or directory"));
                      txt "c.txt" "later"]) in
  let lib := Lib.combine_files (Lib.new_processor 10) w "/proj" None
               true false in
  let root := Root.combine_files w "/proj" 10 None true false in
  returned lib = Ok false
  /\ output lib = Some (block_header "a.txt" ++ str "hello")%list
  /\ stdout lib = [Progress 1 3; Progress 2 3;
                   LogError "Error combining files"]
  /\ returned root = Raise (OSError "No such file or directory")
  /\ output root = Some (block_header "a.txt" ++ str "hello")%list
  /\ stdout root = [Progress 1 3; Progress 2 3].
Proof. vm_compute. repeat split. Qed.

(** C5, as the code has it: the three checks are made by [main], before
    [combine_files] is called.  If the input directory does not exist, is
    not a directory or cannot be read, [main] prints one error message and
    exits with status 1, and no output file is created. *)
Theorem main_rejects_bad_input_dir :
  forall a w,
    scandir (before w) = None ->
    Src.exit_status (Src.main a w) = 1
    /\ Src.output_file (Src.main a w) = None
    /\ exists reason, Src.terminal (Src.main a w) = [Info ("Error: " ++ reason)].
Proof.
  intros a w H. unfold Src.main.
  destruct (before w) as [[f|d [] es]|]; try discriminate H;
    simpl; repeat split; eexists; reflexivity.
Qed.

Lemma main_rejects_bad_input_dir_witness :
  let a := Src.Args "/missing" 10 None false false in
  let w := World [] true None None in
  Src.exit_status (Src.main a w) = 1
  /\ Src.output_file (Src.main a w) = None
  /\ exists reason, Src.terminal (Src.main a w) = [Info ("Error: " ++ reason)].
Proof.
  apply (main_rejects_bad_input_dir
           (Src.Args "/missing" 10 None false false)
           (World [] true None None)).
  reflexivity.
Defined.

(** C5 as the specification words it fails for [combine_files] itself: on
    a directory that does not exist, with the tree listing off, it returns
    [True] and leaves an empty output file; with the tree listing on it
    returns [False], after the output file has been created. *)
Lemma combine_files_on_missing_directory :
  let w := World [] true None None in
  let quietly := Lib.combine_files (Lib.new_processor 10) w "/missing" None
                   true false in
  let listing := Lib.combine_files (Lib.new_processor 10) w "/missing" None
                   false false in
  scandir (before w) = None
  /\ returned quietly = Ok true /\ output quietly = Some []
  /\ returned listing = Ok false /\ output listing = Some [].
Proof. vm_compute. repeat split. Qed.


(** On a directory that is the same for the pre-scan and the walk, no
    variant divides by zero and every progress line has
    [1 <= processed_files <= total_files]. *)
Lemma framed_sound stamp ok post no_tree quiet patterns l total items ws :
  Forall (Forall no_progress) items ->
  quiet = true \/ (List.length items <= total)%nat ->
  let r := framed stamp ok post no_tree quiet (walk_end patterns l) ws
             (numbered quiet total 0 items) in
  returned r <> Raise ZeroDivisionError /\ Forall progress_ok (stdout r).
Proof.
  intros Hn Hle r. subst r. rewrite framed_returned, framed_stdout.
  destruct ok, (no_tree || tree_ok post); cbn [andb];
    try (split; [discriminate|constructor]).
  split; [apply walk_end_never_divides|].
  rewrite Forall_app. split; [now apply numbered_ok|].
  unfold closing. destruct (walk_end patterns l), quiet;
    repeat constructor.
Qed.

Lemma root_progress_sound now ok at_top input_dir max_size_mb patterns
  no_tree quiet :
  let r := Root.combine_files (World now ok at_top at_top) input_dir
             max_size_mb patterns no_tree quiet in
  returned r <> Raise ZeroDivisionError /\ Forall progress_ok (stdout r).
Proof.
  set (ps := match patterns with
             | Some ps => ps
             | None => Root.default_exclude_patterns
             end).
  intros r.
  assert (E : r = Root.combine_files (World now ok at_top at_top) input_dir
                    max_size_mb (Some ps) no_tree quiet)
    by (subst r ps; now destruct patterns).
  rewrite E. clear E r.
  destruct (root_run_shape input_dir max_size_mb ps quiet at_top)
    as (items & H1 & H2 & _ & H4).
  assert (Hle : quiet = true
                \/ (List.length items <= count_total ps input_dir at_top)%nat)
    by (right; rewrite H1; apply candidates_le_total).
  rewrite (H4 _ _ _ _ Hle). now apply framed_sound.
Qed.

Lemma lib_progress_sound processor now ok at_top input_dir patterns
  no_tree quiet :
  let r := Lib.combine_files processor (World now ok at_top at_top)
             input_dir (Some patterns) no_tree quiet in
  returned r
  = Ok (ok && (no_tree || tree_ok at_top)
        && stats_ok patterns (candidates patterns input_dir at_top))
  /\ Forall progress_ok (stdout r).
Proof.
  split.
  - apply (lib_returns processor (World now ok at_top at_top)).
    now right.
  - destruct (lib_run_shape processor input_dir patterns quiet at_top)
      as (ws & items & H1 & H2 & _ & H4).
    assert (Hle : quiet = true
                  \/ (List.length items
                      <= count_total patterns input_dir at_top)%nat)
      by (right; rewrite H1; apply candidates_le_total).
    rewrite (H4 _ _ _ _ Hle), framed_lib_stdout, Forall_app. split.
    + now apply framed_sound.
    + destruct (returned _); repeat constructor.
Qed.

(** C10 fails on the code: the pre-scan runs before the output file is
    opened.  With an empty input directory and the output file inside it,
    the pre-scan counts no file, the walk then meets the output file, and
    the progress line divides 1 by 0.  [src/combine_files.py] lets the
    [ZeroDivisionError] escape; [src/lib/combine_files.py] catches it and
    returns [False]. *)
Theorem progress_divides_by_zero_when_output_is_inside :
  let w := output_inside "out.txt" (D "d" true []) in
  before w = Some (D "d" true [])
  /\ after w = Some (D "d" true [F (File "out.txt" 0 (Readable []))])
  /\ count_total Root.default_exclude_patterns "/d" (before w) = O
  /\ returned (Root.combine_files w "/d" 10 None true false)
     = Raise ZeroDivisionError
  /\ returned (Lib.combine_files (Lib.new_processor 10) w "/d" None
                 true false)
     = Ok false.
Proof. vm_compute. repeat split. Qed.

(** ** Decoding (C3) *)

Lemma val_range x : 0 <= Codec.val x <= 255.
Proof.
  unfold Codec.val. pose proof (Byte.to_N_bounded x). lia.
Qed.

Lemma ascii_is_utf8 bs :
  forallb (fun x => Codec.val x <? 128) bs = true ->
  Codec.utf8 false bs = Some (map Codec.val bs).
Proof.
  induction bs as [|x bs IH]; simpl; [reflexivity|].
  intros H. apply andb_true_iff in H. destruct H as [Hx Hbs].
  rewrite Hx, (IH Hbs). reflexivity.
Qed.

Lemma emit_none c r : Codec.emit c r = None -> r = None.
Proof. destruct r; [discriminate|reflexivity]. Qed.

Lemma utf8_sig_fails_with_utf8 bs :
  Codec.decode Codec.UTF8 bs = None ->
  Codec.decode Codec.UTF8_SIG bs = None.
Proof.
  unfold Codec.decode, Codec.strip_bom.
  destruct bs as [|x0 [|x1 [|x2 r]]]; try easy.
  destruct ((Codec.val x0 =? 239) && (Codec.val x1 =? 187)
            && (Codec.val x2 =? 191)) eqn:E; [|easy].
  apply andb_true_iff in E. destruct E as [E E2].
  apply andb_true_iff in E. destruct E as [E0 E1].
  apply Z.eqb_eq in E0, E1, E2.
  cbn [Codec.utf8]. rewrite E0, E1, E2. cbn -[Codec.utf8].
  apply emit_none.
Qed.

Lemma ascii_fails_with_utf8 bs :
  Codec.decode Codec.UTF8 bs = None ->
  Codec.decode Codec.ASCII bs = None.
Proof.
  unfold Codec.decode.
  destruct (forallb _ bs) eqn:E; [|reflexivity].
  now rewrite (ascii_is_utf8 bs E).
Qed.

Lemma latin1_round_trip bs :
  Codec.encode_latin1 (map Codec.val bs) = Some bs.
Proof.
  induction bs as [|x bs IH]; simpl; [reflexivity|].
  rewrite IH. unfold Codec.val at 1. rewrite N2Z.id, Byte.of_to_N.
  destruct (val_range x) as [H _]. apply Z.leb_le in H. now rewrite H.
Qed.

(** C3 fails on [src/src/combine_files.py]: its loop opens every file in
    text mode as UTF-8 and has no fallback.  [menu.txt] holds "caf\xe9",
    Latin-1 for "café"; [E9] followed by nothing is not UTF-8.  The
    loop writes the header, fails to decode, reports the error, and the
    content is lost.  [read_file_content] in [src/combine_files.py] and
    in [src/lib/combine_files.py] falls back to Latin-1, and the text is
    written. *)
Theorem src_reads_strict_utf8_without_fallback :
  let content := [Byte.x63; Byte.x61; Byte.x66; Byte.xe9] in
  let w := static (D "proj" true
                     [F (File "menu.txt" 4 (Readable content))]) in
  let src := Src.combine_files w "/proj" 10 None true true in
  Codec.decode Codec.UTF8 content = None
  /\ Codec.decode Codec.LATIN1 content = Some [99; 97; 102; 233]
  /\ returned src = Ok tt
  /\ output src = Some (block_header "menu.txt")
  /\ stdout src
     = [ErrorProcessing "/proj/menu.txt" "'utf-8' codec can't decode"]
  /\ Root.read_file_content "/proj/menu.txt" (Readable content)
     = inl [99; 97; 102; 233]
  /\ output (Root.combine_files w "/proj" 10 None true true)
     = Some (block_header "menu.txt" ++ [99; 97; 102; 233])%list
  /\ output (Lib.combine_files (Lib.new_processor 10) w "/proj" None
               true true)
     = Some (block_header "menu.txt" ++ [99; 97; 102; 233])%list.
Proof. vm_compute. repeat split. Qed.

(** ** One file that cannot be read (C2) *)





(** ** One file above the size limit (C8) *)

(** C8, as the code has it.  A candidate file whose size is strictly
    above [max_size_mb * 1024 * 1024] bytes is counted and skipped:
    nothing is written for it, whatever its name, extension and content;
    the too-large notice is printed unless quiet mode is on.  (A file
    whose size cannot be taken is no such file: [os.path.getsize] raises
    behind the progress line.)  The default ceiling is 10.  A [.txt] file
    of 11 MB that can be read is skipped under a ceiling of 10 and
    written, header and decoded content, under a ceiling of 20. *)
Theorem too_large_file_is_skipped :
  forall input_dir patterns quiet total root r,
    quiet = true \/ (processed_files r + 1 <= total)%nat ->
    let progress :=
      if quiet then [] else [Progress (processed_files r + 1) total] in
    Root.default_max_size_mb = 10
    /\ (forall max_size_mb f,
          excluded patterns (fname f) = false ->
          fsize f > max_size_mb * 1024 * 1024 ->
          Root.process input_dir (max_size_mb * 1024 * 1024) patterns quiet
            total root f r
          = match getsize f with
            | inl _ =>
                (Ok tt,
                 adds r []
                   (progress ++
                    if quiet then []
                    else [SkipTooLarge (Path.join root (fname f))]) 1)
            | inr reason => (Raise (OSError reason), adds r [] progress 1)
            end)
    /\ (forall name content,
          excluded patterns name = false ->
          Py.lower (Path.suffix (Path.join root name)) = ".txt" ->
          let f := File name (11 * 1024 * 1024) (Readable content) in
          Root.process input_dir (10 * 1024 * 1024) patterns quiet total
            root f r
          = (Ok tt,
             adds r []
               (progress ++
                if quiet then []
                else [SkipTooLarge (Path.join root name)]) 1)
          /\ Root.process input_dir (20 * 1024 * 1024) patterns quiet total
               root f r
             = (Ok tt,
                adds r
                  [block_header
                     (Path.relpath (Path.join root name) input_dir);
                   Root.try_decode Root.encodings content]
                  progress 1)).
Proof.
  intros input_dir patterns quiet total root r Hp progress.
  assert (Hbig : forall max_size_mb f,
             excluded patterns (fname f) = false ->
             fsize f > max_size_mb * 1024 * 1024 ->
             Root.process input_dir (max_size_mb * 1024 * 1024) patterns
               quiet total root f r
             = match getsize f with
               | inl _ =>
                   (Ok tt,
                    adds r []
                      (progress ++
                       if quiet then []
                       else [SkipTooLarge (Path.join root (fname f))]) 1)
               | inr reason =>
                   (Raise (OSError reason), adds r [] progress 1)
               end).
  { intros max_size_mb f Ex Hsize.
    rewrite (root_process_live _ _ _ _ _ _ f r Ex Hp). cbv zeta.
    destruct (getsize f) as [size|reason] eqn:Eg; [|reflexivity].
    apply getsize_sized in Eg. subst size.
    assert (Hs : (fsize f >? max_size_mb * 1024 * 1024) = true)
      by (rewrite Z.gtb_ltb; apply Z.ltb_lt; lia).
    rewrite Hs, unless_print_adds, adds_adds. reflexivity. }
  split; [reflexivity|]. split; [exact Hbig|].
  intros name content Ex Hext f. split.
  - apply (Hbig 10 f Ex). simpl. lia.
  - rewrite (root_process_live _ _ _ _ _ _ f r Ex Hp).
    unfold getsize. cbn [fname fsize fdata f]. cbv zeta.
    assert (Hs : (11 * 1024 * 1024 >? 20 * 1024 * 1024) = false)
      by reflexivity.
    rewrite Hs, root_guard, Hext.
    cbn [Py.mem existsb String.eqb Ascii.eqb Bool.eqb
         Root.force_text_extensions orb Root.read_file_content].
    rewrite write_write_adds, adds_adds, app_nil_r. reflexivity.
Qed.

Lemma too_large_file_is_skipped_witness :
  let f := File "notes.txt" (11 * 1024 * 1024) (Readable (bytes "hello")) in
  Root.process "/proj" (10 * 1024 * 1024) [] false 1 "/proj" f start
  = (Ok tt,
     adds start [] [Progress 1 1; SkipTooLarge "/proj/notes.txt"] 1)
  /\ Root.process "/proj" (20 * 1024 * 1024) [] false 1 "/proj" f start
     = (Ok tt,
        adds start [block_header "notes.txt"; str "hello"]
          [Progress 1 1] 1).
Proof.
  destruct (too_large_file_is_skipped "/proj" [] false 1%nat "/proj" start)
    as (_ & _ & H).
  - right. simpl. lia.
  - apply (H "notes.txt" (bytes "hello")); reflexivity.
Defined.

(** C8 as the specification words it fails: in quiet mode a file above
    the ceiling is skipped without the too-large notice.  Here the ceiling
    is 0 MB and the file has five bytes. *)
Lemma too_large_file_is_skipped_silently :
  let w := static (D "proj" true [txt "notes.txt" "hello"]) in
  let r := Root.combine_files w "/proj" 0 None true true in
  returned r = Ok tt /\ output r = Some [] /\ stdout r = [].
Proof. vm_compute. repeat split. Qed.

(** ** [.py] in [src/combine_files.py] (C1) *)

(** C1 fails on [src/combine_files.py]: [main.py] is small, readable and
    not excluded, and [is_binary] answers [False] for it, yet the walk
    takes the "Binary file" branch and writes no block, because [.py] is
    not one of the force-text extensions.  [src/lib/combine_files.py]
    writes the block for the same file. *)
Theorem root_drops_python_file :
  let w := static (D "proj" true [txt "main.py" "x = 1"]) in
  let r := Root.combine_files w "/proj" 10 None true false in
  Root.is_binary "/proj/main.py" (Readable (bytes "x = 1")) = false
  /\ returned r = Ok tt
  /\ output r = Some []
  /\ stdout r = [Progress 1 1; SkipBinary "/proj/main.py"; EndLine]
  /\ output (Lib.combine_files (Lib.new_processor 10) w "/proj" None
               true false)
     = Some (block_header "main.py" ++ str "x = 1")%list.
Proof. vm_compute. repeat split. Qed.

(** ** The output stream is only appended to (C9) *)














(** ** Exclusion patterns (C7) *)

Section SortedFilter.
Context {A : Type} (le : A -> A -> bool) (p : A -> bool).
Hypothesis le_total : forall a b, le a b = true \/ le b a = true.
Hypothesis le_trans :
  forall a b c, le a b = true -> le b c = true -> le a c = true.

Lemma insert_first x l :
  Forall (fun y => le x y = true) l -> insert le x l = x :: l.
Proof.
  destruct l as [|y l]; [reflexivity|].
  intros H. inversion H as [|? ? Hy _]; subst. simpl. now rewrite Hy.
Qed.

Lemma filter_insert x l :
  StronglySorted (fun a b => le a b = true) l ->
  filter p (insert le x l)
  = if p x then insert le x (filter p l) else filter p l.
Proof.
  induction 1 as [|y l Hs IH Hy]; simpl.
  - now destruct (p x).
  - destruct (le x y) eqn:E; simpl.
    + destruct (p x) eqn:Px; [|reflexivity].
      destruct (p y) eqn:Py; simpl.
      * now rewrite E.
      * symmetry. apply insert_first.
        rewrite Forall_forall in *. intros z Hz.
        apply filter_In in Hz. destruct Hz as [Hz _].
        apply le_trans with y; auto.
    + rewrite IH. destruct (p y), (p x); simpl; try reflexivity.
      now rewrite E.
Qed.

Lemma filter_sorted l :
  filter p (sorted le l) = sorted le (filter p l).
Proof.
  induction l as [|x l IH]; simpl; [reflexivity|].
  rewrite filter_insert by now apply sorted_sorted.
  destruct (p x); simpl; now rewrite IH.
Qed.
End SortedFilter.

Lemma filter_sorted_files patterns files :
  filter (fun f => negb (excluded patterns (fname f))) (sorted_files files)
  = sorted_files (filter (fun f => negb (excluded patterns (fname f))) files).
Proof.
  apply filter_sorted.
  - intros a b. apply String.leb_total.
  - intros a b c. apply string_leb_trans.
Qed.

(** A loop over files whose body does nothing for an excluded name can
    leave those files out. *)
Lemma for_each_skips_excluded patterns (body : string * file -> M unit) l r :
  (forall q r', excluded patterns (fname (snd q)) = true ->
                body q r' = (Ok tt, r')) ->
  for_each body l r
  = for_each body
      (filter (fun q => negb (excluded patterns (fname (snd q)))) l) r.
Proof.
  intros Hskip. revert r. induction l as [|q l IH]; intros r; simpl.
  - reflexivity.
  - destruct (excluded patterns (fname (snd q))) eqn:E; simpl.
    + rewrite (bind_ok _ _ _ _ _ (Hskip q r E)). apply IH.
    + unfold bind. destruct (body q r) as [[[]|e] r1]; [apply IH|reflexivity].
Qed.

Lemma files_of_pruned patterns es :
  files_of (flat_map (fun e => if excluded patterns (node_name e)
                               then [] else [prune patterns e]) es)
  = filter (fun f => negb (excluded patterns (fname f))) (files_of es).
Proof.
  induction es as [|[f|d l es'] es IH]; simpl; [reflexivity| |].
  - destruct (excluded patterns (fname f)); simpl; now rewrite IH.
  - destruct (excluded patterns d); simpl; exact IH.
Qed.



(** The files of the pruning walk, minus the excluded ones, are the files
    of the same walk in the pruned directory. *)
Lemma walked_pruned patterns n :
  forall top,
    filter (fun q => negb (excluded patterns (fname (snd q))))
      (walked (Root.keep patterns) top (Some n))
    = walked (Root.keep patterns) top (Some (prune patterns n)).
Proof.
  unfold walked, os_walk.
  induction n as [f|d l es IH] using node_forall_ind; intros top.
  - reflexivity.
  - destruct l; [|reflexivity].
    cbn [prune walk_node flat_map fst snd]. rewrite filter_app.
    f_equal.
    + rewrite files_of_pruned, <- filter_sorted_files.
      induction (sorted_files (files_of es)) as [|f fs IHfs]; simpl;
        [reflexivity|].
      destruct (excluded patterns (fname f)); simpl; now rewrite IHfs.
    + induction IH as [|c es Hc _ IHes]; [reflexivity|].
      cbn [flat_map]. rewrite !flat_map_app, filter_app, IHes.
      f_equal.
      destruct c as [f|d' l' es']; cbn [node_name].
      * destruct (excluded patterns (fname f)); reflexivity.
      * unfold Root.keep at 1.
        destruct (excluded patterns d') eqn:Ex; cbn [negb flat_map].
        -- reflexivity.
        -- rewrite app_nil_r. cbn [prune].
           unfold Root.keep at 2. rewrite Ex. cbn [negb].
           apply Hc.
Qed.

Lemma root_walk_pruned input_dir max_size patterns quiet total n r :
  Root.walk input_dir max_size patterns quiet total (Some n) r
  = Root.walk input_dir max_size patterns quiet total
      (Some (prune patterns n)) r.
Proof.
  unfold Root.walk, Root.visit. rewrite !for_each_walked.
  rewrite (for_each_skips_excluded patterns).
  - now rewrite walked_pruned.
  - intros [root f] r' Ex. unfold Root.process. simpl in *. now rewrite Ex.
Qed.

Lemma root_run_of_walk input_dir max_size_mb patterns quiet post o ws items :
  (forall total r,
      quiet = true \/ (processed_files r + List.length items <= total)%nat ->
      Root.walk input_dir (max_size_mb * 1024 * 1024) patterns quiet total
        post r
      = (o, adds r ws (numbered quiet total (processed_files r) items)
              (List.length items))) ->
  forall stamp ok pre no_tree,
    quiet = true
    \/ (List.length items <= count_total patterns input_dir pre)%nat ->
    Root.combine_files (World stamp ok pre post) input_dir max_size_mb
      (Some patterns) no_tree quiet
    = framed stamp ok post no_tree quiet o ws
        (numbered quiet (count_total patterns input_dir pre) 0 items).
Proof.
  intros Hw stamp ok pre no_tree H. unfold Root.combine_files.
  cbn [before after]. apply frame_run with (k := List.length items).
  intros ws0. apply Hw. exact H.
Qed.

Lemma src_run_of_walk input_dir max_size_mb patterns quiet post o ws items :
  (forall total r,
      quiet = true \/ (processed_files r + List.length items <= total)%nat ->
      Src.walk input_dir (max_size_mb * 1024 * 1024) patterns quiet total
        post r
      = (o, adds r ws (numbered quiet total (processed_files r) items)
              (List.length items))) ->
  forall stamp ok pre no_tree,
    quiet = true
    \/ (List.length items <= count_total patterns input_dir pre)%nat ->
    Src.combine_files (World stamp ok pre post) input_dir max_size_mb
      (Some patterns) no_tree quiet
    = framed stamp ok post no_tree quiet o ws
        (numbered quiet (count_total patterns input_dir pre) 0 items).
Proof.
  intros Hw stamp ok pre no_tree H. unfold Src.combine_files.
  cbn [before after]. apply frame_run with (k := List.length items).
  intros ws0. apply Hw. exact H.
Qed.

(** Two frames with the tree listing off, around walks that write the
    same and end alike. *)
Lemma framed_agree stamp ok post1 post2 quiet o ws items1 items2 t1 t2 :
  (quiet = true ->
   numbered quiet t1 0 items1 = numbered quiet t2 0 items2) ->
  let full := framed stamp ok post1 true quiet o ws
                (numbered quiet t1 0 items1) in
  let pruned := framed stamp ok post2 true quiet o ws
                  (numbered quiet t2 0 items2) in
  output full = output pruned /\ returned full = returned pruned
  /\ (quiet = true -> full = pruned).
Proof.
  intros Hq full pruned. subst full pruned. unfold framed.
  destruct ok; cbn [orb output returned]; repeat split.
  intros Hquiet. now rewrite (Hq Hquiet).
Qed.

(** C7, as the code has it.  The walk of [combine_files] writes, prints
    and counts exactly what it would on the directory from which every
    file with an excluded name, and every directory with an excluded name
    together with all that is below it, has been taken away: such files
    get no content block and such directories are not entered.  So, with
    the tree listing off, the output file and the way the run ends are
    those of a run on that smaller directory, and in quiet mode the two
    runs are the same altogether.  Out of quiet mode they may differ in
    the total of the progress lines, and in that alone when the pre-scan
    count is the same: the pre-scan does not prune, and counts the files
    with a name that is not excluded below excluded directories too.
    (The tree listing does not look at the patterns.) *)
Theorem excluded_names_add_no_block :
  forall input_dir patterns quiet n,
    (forall max_size total r,
        Root.walk input_dir max_size patterns quiet total (Some n) r
        = Root.walk input_dir max_size patterns quiet total
            (Some (prune patterns n)) r)
    /\ (forall stamp ok pre max_size_mb,
          Root.combine_files (World stamp ok pre (Some n)) input_dir
            max_size_mb (Some patterns) true quiet
          = Root.combine_files
              (World stamp ok pre (Some (prune patterns n))) input_dir
              max_size_mb (Some patterns) true quiet)
    /\ (forall stamp ok max_size_mb,
          let full :=
            Root.combine_files (World stamp ok (Some n) (Some n)) input_dir
              max_size_mb (Some patterns) true quiet in
          let pruned :=
            Root.combine_files
              (World stamp ok (Some (prune patterns n))
                 (Some (prune patterns n))) input_dir
              max_size_mb (Some patterns) true quiet in
          output full = output pruned
          /\ returned full = returned pruned
          /\ (quiet = true -> full = pruned)).
Proof.
  intros input_dir patterns quiet n. split; [|split].
  - intros. apply root_walk_pruned.
  - intros stamp ok pre max_size_mb.
    unfold Root.combine_files, with_output_file, write_tree.
    cbn [out_ok before after]. destruct ok; [|reflexivity].
    unfold bind at 1 3. unfold ret at 1 2.
    unfold bind at 1 2. now rewrite root_walk_pruned.
  - intros stamp ok max_size_mb.
    destruct (root_walk_shape input_dir (max_size_mb * 1024 * 1024) patterns
                quiet (Some n)) as (items1 & L1 & _ & _ & W1).
    destruct (root_walk_shape input_dir (max_size_mb * 1024 * 1024) patterns
                quiet (Some (prune patterns n)))
      as (items2 & L2 & _ & _ & W2).
    destruct (agree_walks quiet _ _ _ _ _ _ _ _ W1 W2
                (fun total r => root_walk_pruned input_dir _ patterns quiet
                                  total n r))
      as (Ho & Hw & Hq).
    cbv zeta.
    rewrite (root_run_of_walk _ _ _ _ _ _ _ _ W1)
      by (right; rewrite L1; apply candidates_le_total).
    rewrite (root_run_of_walk _ _ _ _ _ _ _ _ W2)
      by (right; rewrite L2; apply candidates_le_total).
    rewrite <- Ho, <- Hw. apply framed_agree. intros Hquiet. now apply Hq.
Qed.

(** C7 as the specification words it fails: [__pycache__] matches a
    default pattern, and what is below it still shows in the output, in
    the tree listing.  The output changes when the directory is emptied. *)
Lemma excluded_directory_shows_in_tree_listing :
  let full := D "proj" true [D "__pycache__" true [txt "secret.txt" "s3"]] in
  let emptied := D "proj" true [D "__pycache__" true []] in
  excluded Root.default_exclude_patterns "__pycache__" = true
  /\ Tree.add_to_tree full []
     = Some [ (Tree.branch_last ++ str "__pycache__")%list;
              (Tree.pad_last ++ Tree.branch_last ++ str "secret.txt")%list ]
  /\ output (Root.combine_files (static full) "/proj" 10 None false true)
     <> output (Root.combine_files (static emptied) "/proj" 10 None
                  false true).
Proof.
  split; [reflexivity|]. split; [reflexivity|].
  vm_compute. discriminate.
Qed.

(** The pre-scan does not prune: [secret.txt] lies below an excluded
    directory and is counted in the total of the progress line, though the
    walk never meets it. *)
Lemma prescan_counts_below_excluded_directory :
  let full := D "proj" true [txt "a.txt" "hello";
                             D "__pycache__" true [txt "secret.txt" "s3"]] in
  let pruned := prune Root.default_exclude_patterns full in
  pruned = D "proj" true [txt "a.txt" "hello"]
  /\ stdout (Root.combine_files (static full) "/proj" 10 None true false)
     = [Progress 1 2; EndLine]
  /\ stdout (Root.combine_files (static pruned) "/proj" 10 None true false)
     = [Progress 1 1; EndLine]
  /\ output (Root.combine_files (static full) "/proj" 10 None true false)
     = output (Root.combine_files (static pruned) "/proj" 10 None true false).
Proof. vm_compute. repeat split. Qed.

(* ================================================================== *)
(** * Further properties of the code *)

(** ** What [read_file_content] returns *)

Lemma try_decode_utf8_or_latin1 content :
  Root.try_decode Root.encodings content
  = match Codec.decode Codec.UTF8 content with
    | Some t => t
    | None => map Codec.val content
    end.
Proof.
  unfold Root.encodings. cbn [Root.try_decode].
  destruct (Codec.decode Codec.UTF8 content) eqn:E; [reflexivity|].
  now rewrite (utf8_sig_fails_with_utf8 _ E), (ascii_fails_with_utf8 _ E).
Qed.

Lemma val_byte x y : Codec.val x = Codec.val y -> x = y.
Proof.
  unfold Codec.val. intros H. apply N2Z.inj in H.
  apply (f_equal Byte.of_N) in H. rewrite !Byte.of_to_N in H. congruence.
Qed.

Lemma bom_started_cases content :
  Codec.bom_started content = true <->
  content = [] \/ content = [Byte.xef] \/ content = [Byte.xef; Byte.xbb].
Proof.
  split.
  - destruct content as [|x0 [|x1 [|x2 r]]]; cbn [Codec.bom_started];
      intros H; try discriminate.
    + now left.
    + right; left. apply Z.eqb_eq in H. f_equal. now apply val_byte.
    + right; right. apply andb_true_iff in H. destruct H as [H0 H1].
      apply Z.eqb_eq in H0, H1. f_equal; [|f_equal]; now apply val_byte.
  - intros [-> | [-> | ->]]; reflexivity.
Qed.

Lemma try_read_utf8_or_latin1 content :
  Lib.try_read Lib.encodings content
  = if Codec.bom_started content then []
    else Codec.universal_newlines
           match Codec.decode Codec.UTF8 content with
           | Some t => t
           | None => map Codec.val content
           end.
Proof.
  unfold Lib.encodings. cbn [Lib.try_read Codec.read_text].
  destruct (Codec.bom_started content) eqn:Eb.
  - apply bom_started_cases in Eb. destruct Eb as [-> | [-> | ->]]; reflexivity.
  - destruct (Codec.decode Codec.UTF8 content) eqn:E; [reflexivity|].
    now rewrite (utf8_sig_fails_with_utf8 _ E), (ascii_fails_with_utf8 _ E).
Qed.

Lemma utf8_after_bom rest :
  Codec.decode Codec.UTF8 (Byte.xef :: Byte.xbb :: Byte.xbf :: rest)
  = Codec.emit 65279 (Codec.decode Codec.UTF8 rest).
Proof. reflexivity. Qed.

(** X1.  Of the four encodings [read_file_content] tries in
    [src/combine_files.py], only the first and the last ever decide: the
    text is the UTF-8 decode of the bytes when they are valid UTF-8, and
    their Latin-1 reading otherwise; the replacing decode behind the loop
    is never reached.  So a byte-order mark in front of valid UTF-8 is not
    removed: it stays as U+FEFF at the head of the text.
    [FileProcessor.read_file_content] reads in text mode; it gives the
    same text with the line ends normalised, but for two files: one that
    holds [EF] alone or [EF BB] alone is no UTF-8, and the [utf-8-sig]
    attempt, waiting for the rest of a byte-order mark, reads it as the
    empty text. *)
Theorem read_file_content_utf8_or_latin1 :
  forall file_path content,
    let decoded :=
      match Codec.decode Codec.UTF8 content with
      | Some t => t
      | None => map Codec.val content
      end in
    Root.read_file_content file_path (Readable content) = inl decoded
    /\ Lib.try_read Lib.encodings content
       = (if Codec.bom_started content then []
          else Codec.universal_newlines decoded)
    /\ (Codec.bom_started content = true <->
        content = [] \/ content = [Byte.xef]
        \/ content = [Byte.xef; Byte.xbb])
    /\ (forall t,
          Codec.decode Codec.UTF8 content = Some t ->
          Root.read_file_content file_path
            (Readable (Byte.xef :: Byte.xbb :: Byte.xbf :: content))
          = inl (65279 :: t)).
Proof.
  intros file_path content decoded. unfold Root.read_file_content.
  rewrite try_decode_utf8_or_latin1, try_read_utf8_or_latin1.
  split; [reflexivity|]. split; [reflexivity|].
  split; [apply bom_started_cases|]. intros t Ht.
  now rewrite try_decode_utf8_or_latin1, utf8_after_bom, Ht.
Qed.

(** ** Line ends *)

Lemma universal_newlines_cons c t :
  Codec.universal_newlines (c :: t)
  = if c =? 13
    then 10 :: match t with
               | c' :: t' =>
                   if c' =? 10 then Codec.universal_newlines t'
                   else Codec.universal_newlines t
               | [] => Codec.universal_newlines t
               end
    else c :: Codec.universal_newlines t.
Proof.
  destruct c as [|p|p]; try reflexivity.
  do 4 (destruct p as [p|p|]; try reflexivity).
  cbn [Codec.universal_newlines Z.eqb Pos.eqb]. f_equal.
  destruct t as [|c' t']; [reflexivity|].
  destruct c' as [|p|p]; try reflexivity.
  do 4 (destruct p as [p|p|]; try reflexivity).
Qed.

Lemma universal_newlines_no_cr_upto n :
  forall t, (List.length t <= n)%nat -> ~ In 13 (Codec.universal_newlines t).
Proof.
  induction n as [|n IH]; intros [|c t] Hlen; simpl in Hlen;
    try (intros []); try lia.
  rewrite universal_newlines_cons.
  destruct (c =? 13) eqn:Ec.
  - intros [H|H]; [discriminate|]. revert H.
    destruct t as [|c' t']; [apply IH; simpl; lia|].
    destruct (c' =? 10); apply IH; simpl in *; lia.
  - intros [H|H]; [apply Z.eqb_neq in Ec; congruence|].
    revert H. apply IH. lia.
Qed.

Lemma universal_newlines_nil t :
  Codec.universal_newlines t = [] -> t = [].
Proof.
  destruct t as [|c t]; [reflexivity|].
  rewrite universal_newlines_cons. destruct (c =? 13); discriminate.
Qed.

(** What a strict UTF-8 decode that succeeds has done with the first
    byte: it is an ASCII byte, decoded as itself, or it is a lead byte
    followed by one to three bytes that are all 128 or more; the rest is
    decoded in turn. *)
Lemma cont_high b : Codec.cont b = true -> 128 <= b.
Proof. unfold Codec.cont. intros H. apply andb_true_iff in H. lia. Qed.

Lemma second3_high b0 b : Codec.second3 b0 b = true -> 128 <= b.
Proof.
  unfold Codec.second3. intros H.
  apply andb_true_iff in H. destruct H as [H _].
  apply andb_true_iff in H. destruct H as [H _]. now apply cont_high.
Qed.

Lemma second4_high b0 b : Codec.second4 b0 b = true -> 128 <= b.
Proof.
  unfold Codec.second4. intros H.
  apply andb_true_iff in H. destruct H as [H _].
  apply andb_true_iff in H. destruct H as [H _]. now apply cont_high.
Qed.

Lemma emit_some c r t :
  Codec.emit c r = Some t -> exists t', r = Some t' /\ t = c :: t'.
Proof.
  destruct r as [t'|]; [|discriminate]. simpl. intros [= <-]. eauto.
Qed.

Lemma utf8_strict_step x0 r0 t :
  Codec.utf8 false (x0 :: r0) = Some t ->
  exists c more rest t',
    t = c :: t' /\ r0 = (more ++ rest)%list
    /\ Codec.utf8 false rest = Some t'
    /\ Forall (fun x => 128 <= Codec.val x) more
    /\ ((Codec.val x0 < 128 /\ c = Codec.val x0 /\ more = [])
        \/ 128 <= Codec.val x0).
Proof.
  cbn [Codec.utf8]. cbv zeta.
  destruct (Codec.val x0 <? 128) eqn:E0.
  { intros H. apply emit_some in H. destruct H as (t' & Hr & ->).
    exists (Codec.val x0), [], r0, t'. apply Z.ltb_lt in E0.
    repeat split; auto. }
  apply Z.ltb_ge in E0.
  destruct ((194 <=? Codec.val x0) && (Codec.val x0 <=? 223)).
  { destruct r0 as [|x1 r1]; [discriminate|].
    destruct (Codec.cont (Codec.val x1)) eqn:E1; [|discriminate].
    intros H. apply emit_some in H. destruct H as (t' & Hr & ->).
    eexists _, [x1], r1, t'. apply cont_high in E1.
    repeat split; auto. }
  destruct ((224 <=? Codec.val x0) && (Codec.val x0 <=? 239)).
  { destruct r0 as [|x1 r1]; [discriminate|].
    destruct (Codec.second3 _ (Codec.val x1)) eqn:E1; [|discriminate].
    destruct r1 as [|x2 r2]; [discriminate|].
    destruct (Codec.cont (Codec.val x2)) eqn:E2; [|discriminate].
    intros H. apply emit_some in H. destruct H as (t' & Hr & ->).
    eexists _, [x1; x2], r2, t'.
    apply second3_high in E1. apply cont_high in E2.
    repeat split; auto. }
  destruct ((240 <=? Codec.val x0) && (Codec.val x0 <=? 244)); [|discriminate].
  destruct r0 as [|x1 r1]; [discriminate|].
  destruct (Codec.second4 _ (Codec.val x1)) eqn:E1; [|discriminate].
  destruct r1 as [|x2 r2]; [discriminate|].
  destruct (Codec.cont (Codec.val x2)) eqn:E2; [|discriminate].
  destruct r2 as [|x3 r3]; [discriminate|].
  destruct (Codec.cont (Codec.val x3)) eqn:E3; [|discriminate].
  intros H. apply emit_some in H. destruct H as (t' & Hr & ->).
  eexists _, [x1; x2; x3], r3, t'.
  apply second4_high in E1. apply cont_high in E2. apply cont_high in E3.
  repeat split; auto.
Qed.

Lemma utf8_keeps_cr_upto n :
  forall bs t,
    (List.length bs <= n)%nat ->
    Codec.utf8 false bs = Some t -> In Byte.x0d bs -> In 13 t.
Proof.
  induction n as [|n IH]; intros [|x0 r0] t Hlen Hd Hin;
    try (now destruct Hin); simpl in Hlen; try lia.
  destruct (utf8_strict_step _ _ _ Hd)
    as (c & more & rest & t' & -> & -> & Hrest & Hmore & Hc).
  assert (Hnot : ~ In Byte.x0d more).
  { intros H. rewrite Forall_forall in Hmore.
    specialize (Hmore _ H). vm_compute in Hmore. now apply Hmore. }
  rewrite length_app in Hlen.
  destruct Hin as [->|Hin].
  - destruct Hc as [(_ & -> & _)|Hc]; [now left|].
    vm_compute in Hc. now exfalso; apply Hc.
  - right. apply in_app_or in Hin. destruct Hin as [Hin|Hin]; [easy|].
    apply (IH rest); auto. lia.
Qed.

(** X2.  The text [FileProcessor.read_file_content] returns for a file it
    can read has no carriage return in it: opening in text mode turns
    every CR LF and every lone CR into LF.  [read_file_content] of
    [src/combine_files.py] decodes the raw bytes and keeps them: when the
    file has a CR byte, the text has a CR. *)
Theorem lib_text_has_no_carriage_return :
  forall file_path content r,
    (exists t,
        Lib.read_file_content file_path (Readable content) r = (Ok (Some t), r)
        /\ ~ In 13 t)
    /\ (In Byte.x0d content ->
        exists t,
          Root.read_file_content file_path (Readable content) = inl t
          /\ In 13 t).
Proof.
  intros file_path content r. split.
  - exists (Lib.try_read Lib.encodings content). split; [reflexivity|].
    rewrite try_read_utf8_or_latin1.
    destruct (Codec.bom_started content); [intros []|].
    eapply universal_newlines_no_cr_upto. reflexivity.
  - intros Hin. eexists. split; [reflexivity|].
    rewrite try_decode_utf8_or_latin1.
    destruct (Codec.decode Codec.UTF8 content) as [t|] eqn:E.
    + eapply utf8_keeps_cr_upto; eauto.
    + change 13 with (Codec.val Byte.x0d). now apply in_map.
Qed.

(** ** One readable file in each variant *)

(** X3.  In [src/combine_files.py] the answer of [is_binary] never
    decides.  A candidate file within the size limit that can be read gets
    its block, header and decoded content, exactly when its lower-cased
    suffix is one of the six force-text extensions ([.swift] is one of
    them), whether or not it holds null bytes; any other file, text or
    not, is reported as "Binary file" (not even that in quiet mode) and
    nothing is written. *)
Theorem root_block_depends_on_suffix_only :
  forall input_dir max_size patterns quiet total root name size content r,
    excluded patterns name = false ->
    quiet = true \/ (processed_files r + 1 <= total)%nat ->
    size <= max_size ->
    let f := File name size (Readable content) in
    let file_path := Path.join root name in
    let progress :=
      if quiet then [] else [Progress (processed_files r + 1) total] in
    Root.process input_dir max_size patterns quiet total root f r
    = if Py.mem (Py.lower (Path.suffix file_path)) Root.force_text_extensions
      then (Ok tt,
            adds r [block_header (Path.relpath file_path input_dir);
                    Root.try_decode Root.encodings content] progress 1)
      else (Ok tt,
            adds r []
              (progress ++ if quiet then [] else [SkipBinary file_path]) 1).
Proof.
  intros input_dir max_size patterns quiet total root name size content r
         Ex Hp Hsize f file_path progress.
  rewrite (root_process_live _ _ _ _ _ _ f r Ex Hp).
  unfold getsize. cbn [fname fsize fdata f]. cbv zeta. fold file_path.
  rewrite (not_too_large _ _ Hsize), root_guard.
  destruct (Py.mem (Py.lower (Path.suffix file_path))
              Root.force_text_extensions).
  - unfold Root.read_file_content.
    rewrite write_write_adds, adds_adds, app_nil_r. reflexivity.
  - rewrite unless_print_adds, adds_adds. reflexivity.
Qed.

Lemma root_block_depends_on_suffix_only_witness :
  Root.process "/proj" 10485760 [] true 1 "/proj"
    (File "logo.txt" 3 (Readable [Byte.x00; Byte.x01; Byte.x00])) start
  = (Ok tt, adds start [block_header "logo.txt"; [0; 1; 0]] [] 1).
Proof.
  apply (root_block_depends_on_suffix_only "/proj" 10485760 [] true 1%nat
           "/proj" "logo.txt" 3 [Byte.x00; Byte.x01; Byte.x00] start).
  - reflexivity.
  - left. reflexivity.
  - lia.
Defined.

Lemma utf8_nil bs : Codec.utf8 false bs = Some [] -> bs = [].
Proof.
  destruct bs as [|x0 r0]; [reflexivity|]. intros H.
  destruct (utf8_strict_step _ _ _ H) as (c & more & rest & t' & E & _).
  discriminate.
Qed.

Lemma try_read_nil content :
  Lib.try_read Lib.encodings content = []
  <-> Codec.bom_started content = true.
Proof.
  rewrite try_read_utf8_or_latin1.
  destruct (Codec.bom_started content) eqn:Eb; [now split|].
  split; [|discriminate]. intros H.
  apply universal_newlines_nil in H.
  assert (Hc : content = []).
  { destruct (Codec.decode Codec.UTF8 content) eqn:E.
    - subst. now apply utf8_nil.
    - now destruct content. }
  subst content. discriminate Eb.
Qed.

(** X4.  In [src/lib/combine_files.py] a candidate file within the size
    limit that can be read and is taken as text ([.swift], or
    [is_binary] false) gets its block exactly when the text read from it
    is not empty, because the block is written under [if content := ...].
    The text is empty for an empty file, and for a file that holds
    nothing but the first byte or the first two bytes of a byte-order
    mark; such a file is dropped without a header and without any
    notice. *)
Theorem lib_block_iff_not_empty :
  forall processor input_dir patterns quiet total root name size content r,
    excluded patterns name = false ->
    quiet = true \/ (processed_files r + 1 <= total)%nat ->
    size <= Lib.max_size processor ->
    let f := File name size (Readable content) in
    let file_path := Path.join root name in
    String.eqb (Py.lower (Path.suffix file_path)) ".swift"
    || negb (Lib.is_binary file_path (Readable content)) = true ->
    let progress :=
      if quiet then [] else [Progress (processed_files r + 1) total] in
    Lib.process processor input_dir patterns quiet total root f r
    = (Ok tt,
       adds r
         (if Codec.bom_started content then []
          else [block_header (Path.relpath file_path input_dir);
                Lib.try_read Lib.encodings content]) progress 1)
    /\ (Lib.try_read Lib.encodings content = []
        <-> Codec.bom_started content = true)
    /\ (Codec.bom_started content = true
        <-> content = [] \/ content = [Byte.xef]
            \/ content = [Byte.xef; Byte.xbb]).
Proof.
  intros processor input_dir patterns quiet total root name size content r
         Ex Hp Hsize f file_path Htext progress.
  split; [|split; [apply try_read_nil|apply bom_started_cases]].
  rewrite (lib_process_live _ _ _ _ _ _ f r Ex Hp).
  unfold getsize. cbn [fname fsize fdata f]. cbv zeta. fold file_path.
  rewrite (not_too_large _ _ Hsize), Htext.
  unfold Lib.read_file_content.
  rewrite (bind_ok _ _ _ _ _ (ret_any_adds _ _)).
  pose proof (try_read_nil content) as Hnil.
  destruct (Lib.try_read Lib.encodings content) as [|c cs].
  - rewrite (proj1 Hnil eq_refl), ret_adds, !adds_adds, !app_nil_r.
    reflexivity.
  - destruct (Codec.bom_started content).
    + discriminate (proj2 Hnil eq_refl).
    + rewrite write_write_adds, !adds_adds, app_nil_r. reflexivity.
Qed.

Lemma lib_block_iff_not_empty_witness :
  Lib.process (Lib.new_processor 10) "/proj" [] true 1 "/proj"
    (File "mark.py" 2 (Readable [Byte.xef; Byte.xbb])) start
  = (Ok tt, adds start [] [] 1).
Proof.
  apply (lib_block_iff_not_empty (Lib.new_processor 10) "/proj" [] true 1%nat
           "/proj" "mark.py" 2 [Byte.xef; Byte.xbb] start).
  - reflexivity.
  - left. reflexivity.
  - vm_compute. discriminate.
  - reflexivity.
Defined.

(** X5.  In [src/src/combine_files.py] a candidate file within the size
    limit that can be opened and is not taken as binary always gets its
    header line.  If its bytes are valid UTF-8 the decoded text follows,
    with the line ends normalised; if they are not, nothing follows the
    header and the error notice is printed, in quiet mode too. *)
Theorem src_header_precedes_decoding :
  forall input_dir max_size patterns quiet total root name size content r,
    excluded patterns name = false ->
    quiet = true \/ (processed_files r + 1 <= total)%nat ->
    size <= max_size ->
    let f := File name size (Readable content) in
    let file_path := Path.join root name in
    Src.is_binary file_path (Readable content) = false ->
    let progress :=
      if quiet then [] else [Progress (processed_files r + 1) total] in
    let header := block_header (Path.relpath file_path input_dir) in
    Src.process input_dir max_size patterns quiet total root f r
    = match Codec.decode Codec.UTF8 content with
      | Some t =>
          (Ok tt, adds r [header; Codec.universal_newlines t] progress 1)
      | None =>
          (Ok tt,
           adds r [header]
             (progress ++
              [ErrorProcessing file_path "'utf-8' codec can't decode"]) 1)
      end.
Proof.
  intros input_dir max_size patterns quiet total root name size content r
         Ex Hp Hsize f file_path Htext progress header.
  rewrite (src_process_live _ _ _ _ _ _ f r Ex Hp).
  unfold getsize. cbn [fname fsize fdata f]. cbv zeta. fold file_path.
  rewrite (not_too_large _ _ Hsize), Htext. fold header.
  destruct (Codec.decode Codec.UTF8 content) as [t|].
  - rewrite write_write_adds, adds_adds, app_nil_r. reflexivity.
  - rewrite write_print_adds, adds_adds. reflexivity.
Qed.

Lemma src_header_precedes_decoding_witness :
  Src.process "/proj" 10485760 [] true 1 "/proj"
    (File "menu.txt" 4 (Readable [Byte.x63; Byte.x61; Byte.x66; Byte.xe9]))
    start
  = (Ok tt,
     adds start [block_header "menu.txt"]
       [ErrorProcessing "/proj/menu.txt" "'utf-8' codec can't decode"] 1).
Proof.
  apply (src_header_precedes_decoding "/proj" 10485760 [] true 1%nat "/proj"
           "menu.txt" 4 [Byte.x63; Byte.x61; Byte.x66; Byte.xe9] start).
  - reflexivity.
  - left. reflexivity.
  - lia.
  - reflexivity.
Defined.

(** ** When the tree lister gets through, and how much it prints *)

Lemma listing_in es e : In e (Tree.listing es) -> In e es /\ Tree.visible e = true.
Proof.
  unfold Tree.listing. intros H. apply filter_In in H. destruct H as [H Hv].
  split; [|exact Hv].
  eapply Permutation_in; [apply sorted_perm|exact H].
Qed.

Lemma forallb_perm {A} (p : A -> bool) l1 l2 :
  Permutation l1 l2 -> forallb p l1 = forallb p l2.
Proof.
  induction 1 as [|x l l' _ IH|x y l|l l' l'' _ IH1 _ IH2]; simpl;
    try congruence.
  destruct (p x), (p y); reflexivity.
Qed.

Lemma forallb_same {A} (p q : A -> bool) l :
  (forall x, p x = q x) -> forallb p l = forallb q l.
Proof.
  intros H. induction l as [|x l IH]; simpl; [reflexivity|].
  now rewrite H, IH.
Qed.

Lemma list_sum_perm l1 l2 : Permutation l1 l2 -> list_sum l1 = list_sum l2.
Proof. induction 1; simpl; lia. Qed.

Lemma forallb_listing (p : node -> bool) es :
  forallb p (Tree.listing es)
  = forallb (fun e => negb (Tree.visible e) || p e) es.
Proof.
  unfold Tree.listing.
  rewrite <- (forallb_perm _ _ _ (sorted_perm Tree.key_le es)).
  induction (sorted Tree.key_le es) as [|e l IH]; simpl; [reflexivity|].
  destruct (Tree.visible e); simpl; now rewrite IH.
Qed.

Lemma sum_listing (g : node -> nat) es :
  list_sum (map g (Tree.listing es))
  = list_sum (map (fun e => if Tree.visible e then g e else O) es).
Proof.
  unfold Tree.listing.
  rewrite <- (list_sum_perm _ _
                (Permutation_map _ (sorted_perm Tree.key_le es))).
  induction (sorted Tree.key_le es) as [|e l IH]; simpl; [reflexivity|].
  destruct (Tree.visible e); simpl; now rewrite IH.
Qed.

(** The loop of [add_to_tree] over entries for which the recursive call
    is already understood. *)
Lemma render_listed prefix (l : list node) :
  Forall (fun e => forall p,
            match Tree.add_to_tree e p with
            | Some lines =>
                lists_all e = true /\ List.length lines = shown e
                /\ Forall (fun line => firstn (List.length p) line = p) lines
            | None => is_file e = true \/ lists_all e = false
            end) l ->
  match Tree.render prefix (map (fun e => (e, Tree.add_to_tree e)) l) with
  | Some lines =>
      forallb (fun e => is_file e || lists_all e) l = true
      /\ List.length lines = list_sum (map (fun e => S (shown e)) l)
      /\ Forall (fun line => firstn (List.length prefix) line = prefix) lines
  | None => forallb (fun e => is_file e || lists_all e) l = false
  end.
Proof.
  induction 1 as [|e l He _ IH]; cbn [map Tree.render forallb list_sum].
  - repeat split. constructor.
  - set (below := if is_dir e then _ else Some []).
    assert (Hb : match below with
                 | Some b =>
                     is_file e || lists_all e = true
                     /\ List.length b = shown e
                     /\ Forall (fun line =>
                                  firstn (List.length prefix) line = prefix) b
                 | None => is_file e || lists_all e = false
                 end).
    { subst below. unfold is_dir. destruct e as [f|d li es]; cbn [is_file negb].
      - repeat split. constructor.
      - match goal with |- context [Tree.add_to_tree _ ?p] =>
          specialize (He p); destruct (Tree.add_to_tree (D d li es) p)
        end.
        + destruct He as (H1 & H2 & H3). repeat split; auto.
          eapply Forall_impl; [|exact H3].
          intros line Hl. rewrite length_app in Hl.
          apply (f_equal (firstn (List.length prefix))) in Hl.
          rewrite firstn_firstn, Nat.min_l in Hl by lia.
          rewrite Hl. rewrite firstn_app, Nat.sub_diag, firstn_all.
          simpl. now rewrite app_nil_r.
        + destruct He as [He|He]; [discriminate|]. exact He. }
    destruct below as [b|].
    + destruct Hb as (H1 & H2 & H3). rewrite H1. cbn [andb].
      destruct (Tree.render prefix _) as [r|].
      * destruct IH as (I1 & I2 & I3). repeat split; auto.
        -- simpl. rewrite length_app. lia.
        -- constructor.
           ++ rewrite firstn_app, Nat.sub_diag, firstn_all.
              simpl. now rewrite app_nil_r.
           ++ rewrite Forall_app. now split.
      * exact IH.
    + rewrite Hb. reflexivity.
Qed.

Lemma add_to_tree_listed n :
  forall p,
    match Tree.add_to_tree n p with
    | Some lines =>
        lists_all n = true /\ List.length lines = shown n
        /\ Forall (fun line => firstn (List.length p) line = p) lines
    | None => is_file n = true \/ lists_all n = false
    end.
Proof.
  induction n as [f|d l es IH] using node_forall_ind; intros p.
  - left. reflexivity.
  - destruct l; [|right; reflexivity].
    rewrite add_to_tree_listing.
    assert (Hl : Forall (fun e => forall p,
                   match Tree.add_to_tree e p with
                   | Some lines =>
                       lists_all e = true /\ List.length lines = shown e
                       /\ Forall (fun line =>
                                    firstn (List.length p) line = p) lines
                   | None => is_file e = true \/ lists_all e = false
                   end) (Tree.listing es)).
    { rewrite Forall_forall in *. intros e He.
      apply IH. now apply listing_in in He. }
    pose proof (render_listed p _ Hl) as H.
    cbn [lists_all shown].
    rewrite forallb_listing in H. rewrite sum_listing in H.
    destruct (Tree.render p _).
    + destruct H as (H1 & H2 & H3). repeat split; auto.
      rewrite <- H1. apply forallb_same. intros e. now rewrite orb_assoc.
    + right. rewrite <- H. apply forallb_same. intros e. now rewrite orb_assoc.
Qed.

(** X6.  [get_file_tree] raises exactly when [os.scandir] fails on the
    top directory or on a directory it descends into; it descends into
    the directories whose name does not start with a dot, and into those
    only.  So a directory that cannot be listed stops the tree listing
    unless it, or a directory above it, is hidden. *)
Theorem tree_lister_fails_on_visible_unlistable_only :
  forall now at_top,
    (exists t, Tree.get_file_tree now at_top = Some t)
    <-> exists n, at_top = Some n /\ lists_all n = true.
Proof.
  intros now at_top. unfold Tree.get_file_tree.
  destruct at_top as [n|].
  - pose proof (add_to_tree_listed n []) as H.
    destruct (Tree.add_to_tree n []) as [lines|].
    + split; [|eauto]. intros _. exists n. now split.
    + split; [intros [t Ht]; discriminate|].
      intros (n' & [= <-] & Hn).
      destruct H as [H|H]; [|congruence].
      destruct n; [discriminate Hn|discriminate H].
  - split; [intros [t Ht]; discriminate|].
    intros (n & Hn & _). discriminate.
Qed.

(** X7.  When [add_to_tree] gets through a directory, it appends one line
    for every entry whose name does not start with a dot, at every depth
    it reaches, and no other line; and every line starts with the prefix
    the call was given. *)
Theorem tree_lister_prints_one_line_per_entry :
  forall n prefix lines,
    Tree.add_to_tree n prefix = Some lines ->
    List.length lines = shown n
    /\ Forall (fun line => firstn (List.length prefix) line = prefix) lines.
Proof.
  intros n prefix lines H.
  pose proof (add_to_tree_listed n prefix) as Hn. rewrite H in Hn.
  now destruct Hn as (_ & H1 & H2).
Qed.

Lemma tree_lister_prints_one_line_per_entry_witness :
  List.length
    [ (Tree.branch_mid ++ str "a.txt")%list;
      (Tree.branch_last ++ str "b.bin")%list ]
  = shown scenario
  /\ Forall (fun line => firstn (List.length (@nil Z)) line = [])
       [ (Tree.branch_mid ++ str "a.txt")%list;
         (Tree.branch_last ++ str "b.bin")%list ].
Proof.
  apply (tree_lister_prints_one_line_per_entry scenario []).
  reflexivity.
Defined.


(** ** What a run prints *)

Lemma root_run_shape' input_dir max_size_mb patterns quiet post :
  exists ws items,
    List.length items
    = live patterns
        (map snd (reached patterns (candidates patterns input_dir post)))
    /\ Forall (Forall no_progress) items
    /\ (quiet = true -> Forall (Forall is_error) items)
    /\ forall stamp ok pre no_tree,
         quiet = true
         \/ (List.length items <= count_total patterns input_dir pre)%nat ->
         Root.combine_files (World stamp ok pre post) input_dir max_size_mb
           (Some patterns) no_tree quiet
         = framed stamp ok post no_tree quiet
             (walk_end patterns (candidates patterns input_dir post))
             ws
             (numbered quiet (count_total patterns input_dir pre) 0 items).
Proof.
  destruct (root_run_shape input_dir max_size_mb patterns quiet post)
    as (items & H). eauto.
Qed.

Lemma filter_progress_closing quiet o :
  filter is_progress (closing quiet o) = [].
Proof. now destruct o, quiet. Qed.

Lemma reached_live_pos patterns l :
  stats_ok patterns l = false ->
  (1 <= live patterns (map snd (reached patterns l)))%nat.
Proof.
  unfold stats_ok. induction l as [|q l IH]; cbn [forallb reached];
    [discriminate|].
  destruct (excluded patterns (fname (snd q)) || stat_ok (snd q)) eqn:E;
    cbn [andb map].
  - intros H. rewrite live_cons. specialize (IH H). lia.
  - intros _. apply orb_false_iff in E. destruct E as [E _].
    rewrite live_cons, E. simpl. lia.
Qed.

(** The progress lines of a frame. *)
Lemma framed_progress stamp ok post no_tree o ws total items :
  Forall (Forall no_progress) items ->
  filter is_progress
    (stdout (framed stamp ok post no_tree false o ws
               (numbered false total 0 items)))
  = if ok && (no_tree || tree_ok post)
    then map (fun i => Progress i total) (seq 1 (List.length items))
    else [].
Proof.
  intros Hn. rewrite framed_stdout.
  destruct (ok && (no_tree || tree_ok post)); [|reflexivity].
  rewrite filter_app, filter_progress_closing, app_nil_r.
  now rewrite (numbered_progress false total items Hn 0).
Qed.

(** X8.  On a directory that is the same for the pre-scan and the walk,
    the progress lines of a run that is not quiet count up one by one:
    they are [1/total], [2/total], ..., [j/total], where [total] is the
    number the pre-scan found and [j] is the number of files the walk
    counts: the files with a name that is not excluded, in the
    directories that are not pruned, up to the first one whose size
    cannot be taken.  That file still gets its line, since the line is
    printed before [os.path.getsize] is called; no file behind it gets
    one.  When every size can be taken, [j] is the number [k] of all
    these files.  No progress line is printed when the output file or the
    tree listing fails.  The three variants agree. *)
Theorem progress_lines_count_up :
  forall stamp ok at_top input_dir max_size_mb patterns no_tree,
    let w := World stamp ok at_top at_top in
    let total := count_total patterns input_dir at_top in
    let files := candidates patterns input_dir at_top in
    let k := live patterns (map snd files) in
    let j := live patterns (map snd (reached patterns files)) in
    let lines :=
      if ok && (no_tree || tree_ok at_top)
      then map (fun i => Progress i total) (seq 1 j) else [] in
    (j <= k <= total)%nat
    /\ (stats_ok patterns files = true -> j = k)
    /\ (stats_ok patterns files = false -> (1 <= j)%nat)
    /\ filter is_progress
         (stdout (Root.combine_files w input_dir max_size_mb (Some patterns)
                    no_tree false)) = lines
    /\ filter is_progress
         (stdout (Src.combine_files w input_dir max_size_mb (Some patterns)
                    no_tree false)) = lines
    /\ filter is_progress
         (stdout (Lib.combine_files (Lib.new_processor max_size_mb) w
                    input_dir (Some patterns) no_tree false)) = lines.
Proof.
  intros stamp ok at_top input_dir max_size_mb patterns no_tree w total files
         k j lines.
  assert (Hjk : (j <= k)%nat) by apply reached_live_le.
  assert (Hk : (k <= total)%nat) by apply walked_live_le_total.
  split; [lia|].
  split; [intros Hs; subst j; now rewrite (stats_ok_reached _ _ Hs)|].
  split; [apply reached_live_pos|].
  subst w lines. split; [|split].
  - destruct (root_run_shape' input_dir max_size_mb patterns false at_top)
      as (ws & items & H1 & H2 & _ & H4).
    rewrite H4 by (right; rewrite H1; fold files j; lia).
    rewrite (framed_progress _ _ _ _ _ _ _ _ H2). now rewrite H1.
  - destruct (src_run_shape input_dir max_size_mb patterns false at_top)
      as (ws & items & H1 & H2 & _ & H4).
    rewrite H4 by (right; rewrite H1; fold files j; lia).
    rewrite (framed_progress _ _ _ _ _ _ _ _ H2). now rewrite H1.
  - destruct (lib_run_shape (Lib.new_processor max_size_mb) input_dir
                patterns false at_top)
      as (ws & items & H1 & H2 & _ & H4).
    rewrite H4 by (right; rewrite H1; fold files j; lia).
    rewrite framed_lib_stdout, filter_app.
    rewrite (framed_progress _ _ _ _ _ _ _ _ H2), H1.
    destruct (returned _); cbn [filter is_progress]; now rewrite app_nil_r.
Qed.





(** ** The patterns of a configuration file *)

Lemma lstrip_clean s : clean_head (LibCli.lstrip s).
Proof.
  induction s as [|a s IH]; simpl; [exact I|].
  destruct (LibCli.is_space a) eqn:E; [exact IH|exact E].
Qed.

Lemma lstrip_of_clean s : clean_head s -> LibCli.lstrip s = s.
Proof. destruct s as [|a s]; simpl; [reflexivity|]. now intros ->. Qed.

Lemma rstrip_clean s : clean_head s -> clean_head (LibCli.rstrip s).
Proof.
  destruct s as [|a s]; simpl; [exact id|]. intros Ha.
  destruct (LibCli.rstrip s); [rewrite Ha|]; exact Ha.
Qed.

Lemma rstrip_idem s : LibCli.rstrip (LibCli.rstrip s) = LibCli.rstrip s.
Proof.
  induction s as [|a s IH]; simpl; [reflexivity|].
  destruct (LibCli.rstrip s) as [|b t] eqn:E.
  - destruct (LibCli.is_space a) eqn:Ea; simpl; [reflexivity|].
    now rewrite Ea.
  - cbn [LibCli.rstrip]. cbn [LibCli.rstrip] in IH. rewrite IH. reflexivity.
Qed.

Lemma strip_idem s : LibCli.strip (LibCli.strip s) = LibCli.strip s.
Proof.
  unfold LibCli.strip.
  rewrite (lstrip_of_clean (LibCli.rstrip (LibCli.lstrip s))).
  - apply rstrip_idem.
  - apply rstrip_clean, lstrip_clean.
Qed.

Lemma config_patterns_clean lines :
  Forall (fun p => p <> "" /\ LibCli.strip p = p)
    (LibCli.config_patterns lines).
Proof.
  unfold LibCli.config_patterns.
  induction lines as [|line lines IH]; simpl; [constructor|].
  destruct (String.eqb (LibCli.strip line) "") eqn:E; simpl; [exact IH|].
  destruct (Py.startswith line "#"); simpl; [exact IH|].
  constructor; [|exact IH].
  split; [now apply String.eqb_neq|apply strip_idem].
Qed.

Lemma empty_pattern_matches_all name : Py.contains "" name = true.
Proof. destruct name; reflexivity. Qed.

(** X10.  [load_exclude_patterns] never raises and prints at most an
    error.  No pattern it returns is empty, and none has white space at
    either end: a blank line of the configuration file cannot become the
    pattern [''], which is contained in every name and would exclude every
    file and directory.  Without [--config], with a file that is missing
    or cannot be opened, it returns no pattern at all. *)
Theorem loaded_patterns_are_stripped_and_not_empty :
  forall config_path at_path r,
    (exists ps notes,
        LibCli.load_exclude_patterns config_path at_path r
        = (Ok ps, adds r [] notes 0)
        /\ Forall is_error notes
        /\ Forall (fun p => p <> "" /\ LibCli.strip p = p) ps
        /\ (ps <> [] ->
            exists path lines,
              config_path = Some path /\ at_path = LibCli.Lines lines))
    /\ (forall name, excluded [""] name = true).
Proof.
  intros config_path at_path r. split.
  - unfold LibCli.load_exclude_patterns.
    destruct config_path as [path|].
    + destruct (String.eqb path "").
      * exists [], []. rewrite ret_any_adds. repeat split; try constructor.
        intros H. now elim H.
      * destruct at_path as [|reason|lines].
        -- exists [], []. rewrite ret_any_adds. repeat split; try constructor.
           intros H. now elim H.
        -- eexists [], _. rewrite print_ret_adds.
           repeat split; try constructor; try exact I.
           ++ constructor.
           ++ intros H. now elim H.
        -- exists (LibCli.config_patterns lines), []. rewrite ret_any_adds.
           repeat split; try constructor.
           ++ apply config_patterns_clean.
           ++ intros _. eauto.
    + exists [], []. rewrite ret_any_adds. repeat split; try constructor.
      intros H. now elim H.
  - intros name. unfold excluded, Py.any_in. simpl.
    now rewrite empty_pattern_matches_all.
Qed.

(** ** The exit status *)






(** ** Patterns add up *)

Lemma excluded_app ps qs name :
  excluded (ps ++ qs) name = excluded ps name || excluded qs name.
Proof. unfold excluded, Py.any_in. apply existsb_app. Qed.

Lemma prune_name patterns e : node_name (prune patterns e) = node_name e.
Proof. now destruct e. Qed.

(** Pruning by patterns that exclude no more than [ps] and then by [ps]
    is pruning by [ps]. *)
Lemma prune_absorbs ps qs n :
  (forall name, excluded qs name = true -> excluded ps name = true) ->
  prune ps (prune qs n) = prune ps n.
Proof.
  intros Hsub.
  induction n as [f|d l es IH] using node_forall_ind; [reflexivity|].
  cbn [prune]. f_equal.
  induction IH as [|e es He _ IHes]; [reflexivity|].
  cbn [flat_map].
  destruct (excluded qs (node_name e)) eqn:Eq.
  - rewrite (Hsub _ Eq). exact IHes.
  - cbn [app flat_map]. rewrite prune_name.
    destruct (excluded ps (node_name e)); cbn [app]; [exact IHes|].
    now rewrite He, IHes.
Qed.

Lemma src_walk_pruned input_dir max_size patterns quiet total n r :
  Src.walk input_dir max_size patterns quiet total (Some n) r
  = Src.walk input_dir max_size patterns quiet total
      (Some (prune patterns n)) r.
Proof.
  unfold Src.walk, Src.visit. rewrite !for_each_walked.
  rewrite (for_each_skips_excluded patterns).
  - change (Src.keep patterns) with (Root.keep patterns).
    now rewrite walked_pruned.
  - intros [root f] r' Ex. now apply src_process_skips.
Qed.


(** Two runs of [src/src/combine_files.py] with the tree listing off, on
    two unchanging directories on which the walk does the same. *)
Lemma src_runs_agree input_dir max_size_mb patterns quiet stamp ok n m :
  (forall total r,
      Src.walk input_dir (max_size_mb * 1024 * 1024) patterns quiet total
        (Some n) r
      = Src.walk input_dir (max_size_mb * 1024 * 1024) patterns quiet total
          (Some m) r) ->
  let full := Src.combine_files (World stamp ok (Some n) (Some n)) input_dir
                max_size_mb (Some patterns) true quiet in
  let other := Src.combine_files (World stamp ok (Some m) (Some m)) input_dir
                 max_size_mb (Some patterns) true quiet in
  output full = output other /\ returned full = returned other
  /\ (quiet = true -> full = other).
Proof.
  intros Hsame.
  destruct (src_walk_shape input_dir (max_size_mb * 1024 * 1024) patterns
              quiet (Some n)) as (ws1 & items1 & L1 & _ & _ & W1).
  destruct (src_walk_shape input_dir (max_size_mb * 1024 * 1024) patterns
              quiet (Some m)) as (ws2 & items2 & L2 & _ & _ & W2).
  destruct (agree_walks quiet _ _ _ _ _ _ _ _ W1 W2 Hsame)
    as (Ho & Hw & Hq).
  cbv zeta.
  rewrite (src_run_of_walk _ _ _ _ _ _ _ _ W1)
    by (right; rewrite L1; apply candidates_le_total).
  rewrite (src_run_of_walk _ _ _ _ _ _ _ _ W2)
    by (right; rewrite L2; apply candidates_le_total).
  rewrite <- Ho, <- Hw. apply framed_agree. intros Hquiet. now apply Hq.
Qed.

(** X13.  [main] of [src/src/combine_files.py] adds the patterns of
    [--exclude] to the nine built-in ones and never drops a built-in
    one.  So whatever [--exclude] says, with the tree listing off and the
    output file outside the input directory, the output file and the exit
    status are what they would be on the directory without the files and
    directories that a built-in pattern names, and in quiet mode so is
    everything the run prints.  (Out of quiet mode the progress lines
    show the total of the pre-scan, which also counts the files below a
    directory that a pattern names.) *)
Theorem src_main_keeps_builtin_patterns :
  forall a stamp ok n,
    Src.arg_no_tree a = true ->
    let pruned := prune Src.default_exclude_patterns n in
    let e1 := Src.main a (World stamp ok (Some n) (Some n)) in
    let e2 := Src.main a (World stamp ok (Some pruned) (Some pruned)) in
    Src.exit_status e1 = Src.exit_status e2
    /\ Src.output_file e1 = Src.output_file e2
    /\ (Src.arg_quiet a = true -> e1 = e2).
Proof.
  intros a stamp ok n Hno pruned e1 e2. subst e1 e2 pruned.
  unfold Src.main. cbn [before].
  destruct n as [f|d [] es]; cbn [prune]; try (now repeat split).
  set (ps := (Src.default_exclude_patterns ++ _)%list).
  set (n := D d true es).
  change (D d true (flat_map _ es))
    with (prune Src.default_exclude_patterns n).
  rewrite Hno.
  destruct (src_runs_agree (Src.arg_input_dir a) (Src.arg_max_size a) ps
              (Src.arg_quiet a) stamp ok n
              (prune Src.default_exclude_patterns n))
    as (Hout & Hret & Hall).
  { intros total r. rewrite src_walk_pruned.
    rewrite (src_walk_pruned _ _ _ _ _
               (prune Src.default_exclude_patterns n)).
    rewrite (prune_absorbs ps Src.default_exclude_patterns); [reflexivity|].
    intros name Hd. subst ps. rewrite excluded_app, Hd. reflexivity. }
  rewrite <- Hret, <- Hout.
  split; [now destruct (returned _)|].
  split; [now destruct (returned _)|].
  intros Hq. now rewrite <- (Hall Hq).
Qed.

Lemma src_main_keeps_builtin_patterns_witness :
  let a := Src.Args "/proj" 10 (Some ["tmp"]) true false in
  let pruned := prune Src.default_exclude_patterns scenario in
  let e1 := Src.main a (World [] true (Some scenario) (Some scenario)) in
  let e2 := Src.main a (World [] true (Some pruned) (Some pruned)) in
  Src.exit_status e1 = Src.exit_status e2
  /\ Src.output_file e1 = Src.output_file e2
  /\ (Src.arg_quiet a = true -> e1 = e2).
Proof.
  apply (src_main_keeps_builtin_patterns
           (Src.Args "/proj" 10 (Some ["tmp"]) true false)
           [] true scenario).
  reflexivity.
Defined.

(** ** The output document *)

(** X14.  The output document of [src/combine_files.py], on a directory
    that is the same for the pre-scan and the walk, when the output file
    opens and the tree listing (if any) gets through: first the tree
    listing and the section marker, unless switched off; then, for the
    files in the order of the walk (directory by directory from the top,
    the files of a directory by name), the header and the decoded content
    of every file that is not excluded by name, not above the size limit,
    has one of the six force-text suffixes and can be read.  The walk
    ends at the first file that passes the filename filter and whose size
    cannot be taken: the blocks of the files behind it are missing.  When
    every size can be taken, the walk gets to all its files.  Nothing
    else is written, and no file is written twice. *)
Theorem root_output_is_tree_then_blocks :
  forall stamp at_top input_dir max_size_mb patterns no_tree quiet,
    no_tree || tree_ok at_top = true ->
    let files := candidates patterns input_dir at_top in
    output (Root.combine_files (World stamp true at_top at_top) input_dir
              max_size_mb (Some patterns) no_tree quiet)
    = Some
        ((if no_tree then []
          else match Tree.get_file_tree stamp at_top with
               | Some t => t ++ section_marker
               | None => []
               end)
         ++ List.concat
              (flat_map
                 (fun q => root_block input_dir (max_size_mb * 1024 * 1024)
                             patterns (fst q) (snd q))
                 (reached patterns files)))%list
    /\ (stats_ok patterns files = true -> reached patterns files = files).
Proof.
  intros stamp at_top input_dir max_size_mb patterns no_tree quiet Hok files.
  split; [|apply stats_ok_reached].
  destruct (root_run_shape input_dir max_size_mb patterns quiet at_top)
    as (items & H1 & _ & _ & H4).
  rewrite H4 by (right; rewrite H1; apply candidates_le_total).
  rewrite framed_output, Hok, concat_app. fold files. do 2 f_equal.
  unfold tree_section. destruct no_tree; [reflexivity|].
  destruct (Tree.get_file_tree stamp at_top); [|reflexivity].
  cbn [List.concat]. now rewrite app_nil_r.
Qed.

Lemma root_output_is_tree_then_blocks_witness :
  output (Root.combine_files (World [] true (Some scenario) (Some scenario))
            "/proj" 10 (Some [".git"]) true true)
  = Some (block_header "a.txt" ++ str "hello")%list.
Proof.
  destruct (root_output_is_tree_then_blocks [] (Some scenario) "/proj" 10
              [".git"] true true eq_refl) as [H _].
  rewrite H. reflexivity.
Defined.

(** X15.  With the tree listing off, [combine_files] does not notice an
    input directory that is missing, is a file, or cannot be listed:
    [os.walk] yields nothing for it, so the run ends well with an empty
    output file and, unless quiet, the closing newline as its only
    print.  This holds in the three variants. *)
Theorem unlistable_input_gives_empty_output :
  forall w input_dir max_size_mb patterns (quiet : bool),
    scandir (after w) = None ->
    out_ok w = true ->
    let closing := if quiet then [] else [EndLine] in
    Root.combine_files w input_dir max_size_mb patterns true quiet
    = Result (Ok tt) (Some []) closing
    /\ Src.combine_files w input_dir max_size_mb patterns true quiet
       = Result (Ok tt) (Some []) closing
    /\ Lib.combine_files (Lib.new_processor max_size_mb) w input_dir
         patterns true quiet
       = Result (Ok true) (Some []) closing.
Proof.
  intros w input_dir max_size_mb patterns quiet Ha Hok closing.
  assert (Hwalk : forall keep, os_walk keep input_dir (after w) = []).
  { intros keep. destruct (after w) as [[f|d [] es]|]; try reflexivity.
    discriminate Ha. }
  unfold Root.combine_files, Src.combine_files, Lib.combine_files,
    with_output_file, write_tree, Root.walk, Src.walk, Lib.walk.
  rewrite Hok, !Hwalk. subst closing.
  destruct quiet; repeat split.
Qed.

Lemma unlistable_input_gives_empty_output_witness :
  Root.combine_files (World [] true None None) "/missing" 10 None true true
  = Result (Ok tt) (Some []) []
  /\ Src.combine_files (World [] true None None) "/missing" 10 None true true
     = Result (Ok tt) (Some []) []
  /\ Lib.combine_files (Lib.new_processor 10) (World [] true None None)
       "/missing" None true true
     = Result (Ok true) (Some []) [].
Proof.
  apply (unlistable_input_gives_empty_output (World [] true None None)
           "/missing" 10 None true); reflexivity.
Defined.

(** ** The null-byte sniff *)

Lemma null_in_chunk_first_kib head tail :
  List.length head = 1024%nat ->
  null_in_chunk (head ++ tail) = null_in_chunk head.
Proof.
  intros H. unfold null_in_chunk.
  rewrite firstn_app, H, Nat.sub_diag. cbn [firstn].
  rewrite app_nil_r. reflexivity.
Qed.

Lemma in_firstn {A} (x : A) n l : In x (firstn n l) -> In x l.
Proof.
  revert l. induction n as [|n IH]; intros [|y l]; simpl; try easy.
  intros [H|H]; [now left|right; now apply IH].
Qed.

Lemma no_null_in_clean_chunk head :
  forallb (fun x => negb (Codec.val x =? 0)) head = true ->
  null_in_chunk head = false.
Proof.
  intros Hclean. unfold null_in_chunk.
  destruct (existsb _ (firstn 1024 head)) eqn:E; [|reflexivity].
  apply existsb_exists in E. destruct E as (x & Hin & Hx).
  apply in_firstn in Hin.
  rewrite forallb_forall in Hclean. specialize (Hclean _ Hin).
  now rewrite Hx in Hclean.
Qed.

(** X16.  [is_binary] looks at the first 1024 bytes and no further.  For
    a file whose suffix is not in the list of text extensions, the answer
    is that of these bytes alone: whatever follows them, null bytes
    included, does not change it; so a file with 1024 bytes free of
    null bytes in front is taken as text.  This is so in
    [src/combine_files.py] and in [src/lib/combine_files.py]. *)
Theorem is_binary_reads_first_kib_only :
  forall file_path head tail,
    Py.mem (Py.lower (Path.suffix file_path)) Root.code_extensions = false ->
    List.length head = 1024%nat ->
    Root.is_binary file_path (Readable (head ++ tail))
    = Root.is_binary file_path (Readable head)
    /\ Lib.is_binary file_path (Readable (head ++ tail))
       = Lib.is_binary file_path (Readable head)
    /\ (forallb (fun x => negb (Codec.val x =? 0)) head = true ->
        Root.is_binary file_path (Readable (head ++ tail)) = false
        /\ Lib.is_binary file_path (Readable (head ++ tail)) = false).
Proof.
  intros file_path head tail Hext Hlen.
  unfold Root.is_binary, Lib.is_binary.
  change Lib.code_extensions with Root.code_extensions.
  rewrite Hext, (null_in_chunk_first_kib _ _ Hlen).
  split; [reflexivity|]. split; [reflexivity|].
  intros Hclean. rewrite (no_null_in_clean_chunk _ Hclean). now split.
Qed.

Lemma is_binary_reads_first_kib_only_witness :
  Root.is_binary "/proj/blob" (Readable (repeat Byte.x41 1024 ++ [Byte.x00]))
  = Root.is_binary "/proj/blob" (Readable (repeat Byte.x41 1024))
  /\ Lib.is_binary "/proj/blob" (Readable (repeat Byte.x41 1024 ++ [Byte.x00]))
     = Lib.is_binary "/proj/blob" (Readable (repeat Byte.x41 1024))
  /\ (forallb (fun x => negb (Codec.val x =? 0)) (repeat Byte.x41 1024) = true ->
      Root.is_binary "/proj/blob"
        (Readable (repeat Byte.x41 1024 ++ [Byte.x00])) = false
      /\ Lib.is_binary "/proj/blob"
           (Readable (repeat Byte.x41 1024 ++ [Byte.x00])) = false).
Proof.
  apply (is_binary_reads_first_kib_only "/proj/blob"
           (repeat Byte.x41 1024) [Byte.x00]).
  - reflexivity.
  - apply repeat_length.
Defined.

(** ** The order of the walk *)



